(** * Persistency adapters and facade of the bpmn engine

    A shallow embedding of

    - [lib/persistency/redis.js]      (class [RedisPersistency]),
    - [lib/persistency/postgresql.js] (class [PostgresPersistency]) together
      with the table definition of [process_instances],
    - [lib/persistency/supabase.js]   (class [SupabasePersistency]),
    - the facade [Persistency] that picks one of them by URI scheme,

    followed by the properties of the persistence contract.

    The adapters are [async] functions in callback style: each body is a
    [try { ... callback(null, r) } catch (err) { callback(err) }].  They are
    embedded in a state-and-exception monad over the caller's heap, the
    contents of the backing store and the log of callback invocations. *)

From stdpp Require Import gmap strings list fin_maps pretty.
From Stdlib Require Import ZArith Lia Ascii.

#[local] Set Warnings "-register-all".
#[local] Open Scope Z_scope.
#[local] Open Scope string_scope.

(** ** JavaScript values *)

(** The data a process document is made of.  Numbers are the integers;
    functions, symbols and cyclic objects are outside the model.  An object
    is a finite map from property names to values, so equality of values is
    deep equality. *)
Inductive value : Type :=
  | VUndef
  | VNull
  | VBool (b : bool)
  | VNum (n : Z)
  | VStr (s : string)
  | VArr (l : list value)
  | VObj (o : gmap string value).

(** The syntax tree of a JSON text. *)
Inductive json : Type :=
  | JNull
  | JBool (b : bool)
  | JNum (n : Z)
  | JStr (s : string)
  | JArr (l : list json)
  | JObj (o : gmap string json).

(** [!v] is [negb (truthy v)]. *)
Definition truthy (v : value) : bool :=
  match v with
  | VUndef | VNull => false
  | VBool b => b
  | VNum n => negb (Z.eqb n 0)
  | VStr s => negb (String.eqb s "")
  | VArr _ | VObj _ => true
  end.

(** [`${v}`]: the string a template literal interpolates. *)
Fixpoint ToString (v : value) : string :=
  match v with
  | VUndef => "undefined"
  | VNull => "null"
  | VBool true => "true"
  | VBool false => "false"
  | VNum n => pretty n
  | VStr s => s
  | VArr l =>
      String.concat ","
        (map (fun x => match x with
                       | VUndef | VNull => ""
                       | _ => ToString x
                       end) l)
  | VObj _ => "[object Object]"
  end.

(** [JSON.stringify]: [None] stands for the result [undefined].  A property
    whose value is [undefined] is left out, an [undefined] array element is
    written as [null]. *)
Fixpoint JSON_stringify (v : value) : option json :=
  match v with
  | VUndef => None
  | VNull => Some JNull
  | VBool b => Some (JBool b)
  | VNum n => Some (JNum n)
  | VStr s => Some (JStr s)
  | VArr l => Some (JArr (map (fun x => default JNull (JSON_stringify x)) l))
  | VObj o => Some (JObj (omap JSON_stringify o))
  end.

(** [JSON.stringify] of an object, which always is a text. *)
Definition JSON_stringify_object (o : gmap string value) : json :=
  JObj (omap JSON_stringify o).

(** [JSON.parse] of a well-formed text.  A number is kept as it is written:
    the rounding of a literal that no double holds exactly (beyond 2^53) is
    outside the model, and nothing below relies on such a literal coming
    back unchanged. *)
Fixpoint JSON_parse (j : json) : value :=
  match j with
  | JNull => VNull
  | JBool b => VBool b
  | JNum n => VNum n
  | JStr s => VStr s
  | JArr l => VArr (map JSON_parse l)
  | JObj o => VObj (JSON_parse <$> o)
  end.

(** Values that JSON can represent: no [undefined] anywhere inside. *)
Fixpoint json_representable (v : value) : bool :=
  match v with
  | VUndef => false
  | VNull | VBool _ | VNum _ | VStr _ => true
  | VArr l => forallb json_representable l
  | VObj o => map_fold (fun _ x acc => json_representable x && acc) true o
  end.

(** Number of constructors of a value, the measure for induction. *)
Fixpoint value_size (v : value) : nat :=
  match v with
  | VArr l => S (foldr (fun x acc => (value_size x + acc)%nat) 0%nat l)
  | VObj o => S (map_fold (fun _ x acc => (value_size x + acc)%nat) 0%nat o)
  | _ => 1%nat
  end.

(** The same measure on JSON texts. *)
Fixpoint json_size (j : json) : nat :=
  match j with
  | JArr l => S (foldr (fun x acc => (json_size x + acc)%nat) 0%nat l)
  | JObj o => S (map_fold (fun _ x acc => (json_size x + acc)%nat) 0%nat o)
  | _ => 1%nat
  end.

(** ** Errors *)

(** What the code throws or receives: [new Error(msg)], the [TypeError] and
    [SyntaxError] of the language, and the error object a store client
    rejects with (Redis reply error, SQLSTATE of PostgreSQL, PostgREST
    error). *)
Inductive js_error : Type :=
  | Error (msg : string)
  | TypeError (msg : string)
  | SyntaxError (msg : string)
  | ClientError (code : string).

(** The taxonomy of the contract, read off the values the code uses. *)
Definition ConfigurationError (e : js_error) : Prop :=
  e = Error "Persistency options must contain an uri property.".

Definition ValidationError (e : js_error) : Prop :=
  e = Error "Document must have an id to be updated.".

Definition StoreError (e : js_error) : Prop :=
  exists code, e = ClientError code.

(** ** Heap, callbacks and the monad *)

Definition loc := positive.

(** A row of [process_instances] as a query returns it. *)
Record row := Row {
  row_id : string;
  row_doc : value;
  row_created_at : Z;
  row_updated_at : Z
}.

(** Second argument of a callback.  [RRef l] is the caller's own document
    object handed back, the others are fresh values. *)
Inductive result : Type :=
  | RUndef
  | RNull
  | RRef (l : loc)
  | RVal (v : value)
  | RRow (r : row)
  | RRows (rs : list row).

(** One call [callback(err, result)]; [callback(err)] and [callback(null)]
    leave the result [undefined]. *)
Record invocation := Invoke {
  inv_err : option js_error;
  inv_result : result
}.

(** A callback returns ([None]) or throws ([Some e]). *)
Definition callback := invocation -> option js_error.

Record state (B : Type) := State {
  heap : gmap loc (gmap string value);
  store : B;
  calls : list invocation
}.
Arguments State {B} _ _ _.
Arguments heap {B} _.
Arguments store {B} _.
Arguments calls {B} _.

(** A computation either throws or returns, and leaves a state in both
    cases. *)
Definition M (B A : Type) : Type := state B -> (js_error + A) * state B.

Definition ret {B A} (a : A) : M B A := fun s => (inr a, s).

Definition bind {B A C} (m : M B A) (k : A -> M B C) : M B C :=
  fun s => match m s with
           | (inl e, s') => (inl e, s')
           | (inr a, s') => k a s'
           end.

Definition throw {B A} (e : js_error) : M B A := fun s => (inl e, s).

Definition try_catch {B A} (body : M B A) (handler : js_error -> M B A) : M B A :=
  fun s => match body s with
           | (inl e, s') => handler e s'
           | (inr a, s') => (inr a, s')
           end.

#[global] Instance M_ret {B} : MRet (M B) := @ret B.
#[global] Instance M_bind {B} : MBind (M B) := fun A C k m => bind m k.

(** [callback(err, res)]: logged, then the callback's own outcome. *)
Definition invoke {B} (cb : callback) (err : option js_error) (res : result) : M B unit :=
  fun s =>
    let i := Invoke err res in
    (match cb i with Some e => inl e | None => inr tt end,
     State (heap s) (store s) (calls s ++ [i])).

(** [doc.name]; reading a property of something that is no object throws. *)
Definition get_prop {B} (doc : loc) (name : string) : M B value :=
  fun s => match heap s !! doc with
           | Some o => (inr (default VUndef (o !! name)), s)
           | None => (inl (TypeError "Cannot read properties of undefined"), s)
           end.

(** [doc.name = v], in place. *)
Definition set_prop {B} (doc : loc) (name : string) (v : value) : M B unit :=
  fun s => match heap s !! doc with
           | Some o => (inr tt, State (<[doc := <[name := v]> o]> (heap s)) (store s) (calls s))
           | None => (inl (TypeError "Cannot set properties of undefined"), s)
           end.

(** The object behind [doc], as it is when it is serialised. *)
Definition deref {B} (doc : loc) : M B (gmap string value) :=
  fun s => match heap s !! doc with
           | Some o => (inr o, s)
           | None => (inl (TypeError "Cannot read properties of undefined"), s)
           end.

(** Run from the caller's heap and the store's contents with an empty log. *)
Definition run {B A} (m : M B A) (h : gmap loc (gmap string value)) (b : B) :
  (js_error + A) * state B := m (State h b []).

Definition final {B A} (m : M B A) h (b : B) : state B := snd (run m h b).

(** The log of a [try] block that ends in the call [i] of the callback: when
    the callback throws, the [catch] block calls it again with what it
    threw. *)
Definition completion (cb : callback) (i : invocation) : list invocation :=
  i :: match cb i with
       | Some e => [Invoke (Some e) RUndef]
       | None => []
       end.

(** A signal carries an error or a result, not both and not neither. *)
Definition error_xor_result (i : invocation) : Prop :=
  is_Some (inv_err i) <-> inv_result i = RUndef.

(** A signal does not carry both an error and a result. *)
Definition not_both (i : invocation) : Prop :=
  is_Some (inv_err i) -> inv_result i = RUndef.

(** The callback has been called exactly once, with a signal in [P]. *)
Definition signals_once (P : invocation -> Prop) (log : list invocation) : Prop :=
  exists i, log = [i] /\ P i.

(** The first completion signal in a log. *)
Definition reports {B} (st : state B) (i : invocation) : Prop :=
  head (calls st) = Some i.

(** ** The environment of one call *)

(** [uuidv4()] returns the 36 characters of a version-4 UUID. *)
Record uuid := Uuid {
  uuid_text : string;
  uuid_length : String.length uuid_text = 36%nat
}.

(** What the outside world contributes to one adapter call: the identifier
    [uuidv4()] would draw, whether the n-th request to the store fails, and
    the time. *)
Record env := Env {
  uuidv4 : uuid;
  fault : nat -> option js_error;
  now : Z
}.

(** [doc.id || uuidv4()] *)
Definition id_or_uuid (ε : env) (d : value) : value :=
  if truthy d then d else VStr (uuid_text (uuidv4 ε)).

(** ** The key-value adapter: [RedisPersistency] *)

Module RedisPersistency.

(** What a Redis key holds: the text written by [JSON.stringify], given by
    its syntax tree, or some other text that is no JSON document. *)
Inductive text : Type :=
  | JsonText (j : json)
  | OtherText (s : string).

Abbreviation db := (gmap string text).

(** The promisified client commands; request [n] of the call fails when
    the environment says so. *)
Definition setAsync (ε : env) (n : nat) (key : string) (v : text) : M db unit :=
  fun s => match fault ε n with
           | Some e => (inl e, s)
           | None => (inr tt, State (heap s) (<[key := v]> (store s)) (calls s))
           end.

Definition getAsync (ε : env) (n : nat) (key : string) : M db (option text) :=
  fun s => match fault ε n with
           | Some e => (inl e, s)
           | None => (inr (store s !! key), s)
           end.

Definition delAsync (ε : env) (n : nat) (key : string) : M db unit :=
  fun s => match fault ε n with
           | Some e => (inl e, s)
           | None => (inr tt, State (heap s) (delete key (store s)) (calls s))
           end.

(** [KEYS prefix*] *)
Definition keysAsync (ε : env) (n : nat) (prefix : string) : M db (list string) :=
  fun s => match fault ε n with
           | Some e => (inl e, s)
           | None => (inr (filter (fun k => String.prefix prefix k = true)
                                  (fst <$> map_to_list (store s))), s)
           end.

Definition mgetAsync (ε : env) (n : nat) (keys : list string) : M db (list (option text)) :=
  fun s => match fault ε n with
           | Some e => (inl e, s)
           | None => (inr ((fun k => store s !! k) <$> keys), s)
           end.

(** [!data] for the reply of [GET]: [null] and the empty string. *)
Definition is_falsy (data : option text) : bool :=
  match data with
  | None => true
  | Some (OtherText s) => String.eqb s ""
  | Some (JsonText _) => false
  end.

(** [JSON.parse(data)]; [JSON.parse(null)] is [null]. *)
Definition JSON_parse_text (data : option text) : M db value :=
  match data with
  | None => ret VNull
  | Some (JsonText j) => ret (JSON_parse j)
  | Some (OtherText _) => throw (SyntaxError "Unexpected token in JSON")
  end.

Definition save (ε : env) (doc : loc) (callback : callback) : M db unit :=
  try_catch
    (d ← get_prop doc "id";
     let id := id_or_uuid ε d in
     set_prop doc "id" id;;
     let key := "process_instance:" +:+ ToString id in
     o ← deref doc;
     setAsync ε 0 key (JsonText (JSON_stringify_object o));;
     invoke callback None (RRef doc))
    (fun err => invoke callback (Some err) RUndef).

Definition get (ε : env) (id : value) (callback : callback) : M db unit :=
  try_catch
    (let key := "process_instance:" +:+ ToString id in
     data ← getAsync ε 0 key;
     if is_falsy data then invoke callback None RNull
     else v ← JSON_parse_text data; invoke callback None (RVal v))
    (fun err => invoke callback (Some err) RUndef).

Definition update (ε : env) (doc : loc) (callback : callback) : M db unit :=
  try_catch
    (d ← get_prop doc "id";
     (if truthy d then ret tt
      else throw (Error "Document must have an id to be updated."));;
     let key := "process_instance:" +:+ ToString d in
     o ← deref doc;
     setAsync ε 0 key (JsonText (JSON_stringify_object o));;
     invoke callback None (RRef doc))
    (fun err => invoke callback (Some err) RUndef).

Definition remove (ε : env) (id : value) (callback : callback) : M db unit :=
  try_catch
    (let key := "process_instance:" +:+ ToString id in
     delAsync ε 0 key;;
     invoke callback None RUndef)
    (fun err => invoke callback (Some err) RUndef).

Definition list (ε : env) (callback : callback) : M db unit :=
  try_catch
    (keys ← keysAsync ε 0 "process_instance:";
     if (length keys =? 0)%nat then invoke callback None (RVal (VArr []))
     else docs ← mgetAsync ε 1 keys;
          result ← mapM JSON_parse_text docs;
          invoke callback None (RVal (VArr result)))
    (fun err => invoke callback (Some err) RUndef).

(** The creation and last-update timestamps of a stored record, were they
    kept next to the document as the relational table keeps them. *)
Definition record_timestamps (t : text) : option (json * json) :=
  match t with
  | JsonText (JObj fields) =>
      c ← fields !! "created_at"; u ← fields !! "updated_at"; Some (c, u)
  | _ => None
  end.

End RedisPersistency.

(** ** The table [process_instances] *)

Module Relational.

(** A stored row, under its primary key [id VARCHAR(50)]: the [doc JSONB]
    column and the two timestamps. *)
Record stored := Stored {
  col_doc : json;
  col_created_at : Z;
  col_updated_at : Z
}.

Abbreviation table := (gmap string stored).

Fixpoint blank (s : string) : bool :=
  match s with
  | EmptyString => true
  | String c s' => Ascii.eqb c " "%char && blank s'
  end.

(** A text is the sequence of its UTF-8 bytes; a byte [10xxxxxx] continues
    the character that the bytes before it began. *)
Definition continuation (c : ascii) : bool :=
  match c with
  | Ascii _ _ _ _ _ _ b6 b7 => b7 && negb b6
  end.

(** The number of characters, which is what the width of a column counts. *)
Fixpoint char_length (s : string) : nat :=
  match s with
  | EmptyString => 0%nat
  | String c s' => ((if continuation c then 0 else 1) + char_length s')%nat
  end.

(** The first [n] characters of a text, and what follows them. *)
Fixpoint split_chars (n : nat) (s : string) : string * string :=
  match s with
  | EmptyString => (EmptyString, EmptyString)
  | String c s' =>
      if continuation c
      then let '(keep, excess) := split_chars n s' in (String c keep, excess)
      else match n with
           | O => (EmptyString, s)
           | S n' => let '(keep, excess) := split_chars n' s' in (String c keep, excess)
           end
  end.

(** Assignment to a [VARCHAR(n)] column: a text of more than [n] characters
    is refused unless the excess is blank, and then cut. *)
Definition varchar (n : nat) (s : string) : option string :=
  if (char_length s <=? n)%nat then Some s
  else if blank (snd (split_chars n s))
       then Some (fst (split_chars n s))
       else None.

(** A row as [SELECT *] or [RETURNING *] hands it to the client, the
    document parsed. *)
Definition select_row (k : string) (r : stored) : row :=
  Row k (JSON_parse (col_doc r)) (col_created_at r) (col_updated_at r).

(** [rows[0]] *)
Definition first_row (rows : list row) : result :=
  match rows with
  | r :: _ => RRow r
  | [] => RUndef
  end.

Section Encoding.

(** The text the driver or the server makes of an identifier that is
    not a string. *)
Variable encode_other : value -> string.

(** A value bound to the [id] column; [null] and [undefined] are SQL
    [NULL]. *)
Definition id_text (v : value) : option string :=
  match v with
  | VUndef | VNull => None
  | VStr s => Some s
  | _ => Some (encode_other v)
  end.

(** [INSERT INTO process_instances (id, doc) VALUES (id, doc)], the
    timestamps by their default [NOW()].  The errors are the SQLSTATE
    codes not_null_violation, string_data_right_truncation and
    unique_violation. *)
Definition insert_row (t : Z) (id : value) (doc : json) (tbl : table) :
  js_error + (table * list row) :=
  match id_text id with
  | None => inl (ClientError "23502")
  | Some s =>
      match varchar 50 s with
      | None => inl (ClientError "22001")
      | Some k =>
          match tbl !! k with
          | Some _ => inl (ClientError "23505")
          | None =>
              let r := Stored doc t t in
              inr (<[k := r]> tbl, [select_row k r])
          end
      end
  end.

End Encoding.

(** [SELECT * FROM process_instances WHERE id = k] *)
Definition select_by_id (k : option string) (tbl : table) : list row :=
  match k with
  | None => []
  | Some k => match tbl !! k with
              | Some r => [select_row k r]
              | None => []
              end
  end.

(** [UPDATE process_instances SET doc = doc, updated_at = t WHERE id = k] *)
Definition update_row (t : Z) (k : option string) (doc : json) (tbl : table) :
  table * list row :=
  match k with
  | None => (tbl, [])
  | Some k => match tbl !! k with
              | Some r =>
                  let r' := Stored doc (col_created_at r) t in
                  (<[k := r']> tbl, [select_row k r'])
              | None => (tbl, [])
              end
  end.

(** [DELETE FROM process_instances WHERE id = k] *)
Definition delete_row (k : option string) (tbl : table) : table :=
  match k with
  | None => tbl
  | Some k => delete k tbl
  end.

(** [SELECT * FROM process_instances] *)
Definition select_all (tbl : table) : list row :=
  (fun kr => select_row (fst kr) (snd kr)) <$> map_to_list tbl.

End Relational.

(** ** The relational adapter: [PostgresPersistency] *)

Module PostgresPersistency.
Import Relational.

Section Driver.

Variable encode_other : value -> string.

(** [this.pool.query(text, params)] for each of the five statements. *)
Definition query_insert (ε : env) (n : nat) (id : value) (doc : gmap string value) :
  M table (list row) :=
  fun s => match fault ε n with
           | Some e => (inl e, s)
           | None =>
               match insert_row encode_other (now ε) id (JSON_stringify_object doc) (store s) with
               | inl e => (inl e, s)
               | inr (tbl, rows) => (inr rows, State (heap s) tbl (calls s))
               end
           end.

Definition query_select (ε : env) (n : nat) (id : value) : M table (list row) :=
  fun s => match fault ε n with
           | Some e => (inl e, s)
           | None => (inr (select_by_id (id_text encode_other id) (store s)), s)
           end.

Definition query_update (ε : env) (n : nat) (doc : gmap string value) (id : value) :
  M table (list row) :=
  fun s => match fault ε n with
           | Some e => (inl e, s)
           | None =>
               let '(tbl, rows) :=
                 update_row (now ε) (id_text encode_other id) (JSON_stringify_object doc) (store s) in
               (inr rows, State (heap s) tbl (calls s))
           end.

Definition query_delete (ε : env) (n : nat) (id : value) : M table unit :=
  fun s => match fault ε n with
           | Some e => (inl e, s)
           | None =>
               (inr tt, State (heap s) (delete_row (id_text encode_other id) (store s)) (calls s))
           end.

Definition query_select_all (ε : env) (n : nat) : M table (list row) :=
  fun s => match fault ε n with
           | Some e => (inl e, s)
           | None => (inr (select_all (store s)), s)
           end.

Definition save (ε : env) (doc : loc) (callback : callback) : M table unit :=
  try_catch
    (d ← get_prop doc "id";
     let id := id_or_uuid ε d in
     set_prop doc "id" id;;
     o ← deref doc;
     rows ← query_insert ε 0 id o;
     invoke callback None (first_row rows))
    (fun err => invoke callback (Some err) RUndef).

Definition get (ε : env) (id : value) (callback : callback) : M table unit :=
  try_catch
    (rows ← query_select ε 0 id;
     invoke callback None (first_row rows))
    (fun err => invoke callback (Some err) RUndef).

Definition update (ε : env) (doc : loc) (callback : callback) : M table unit :=
  try_catch
    (d ← get_prop doc "id";
     (if truthy d then ret tt
      else throw (Error "Document must have an id to be updated."));;
     o ← deref doc;
     rows ← query_update ε 0 o d;
     invoke callback None (first_row rows))
    (fun err => invoke callback (Some err) RUndef).

Definition remove (ε : env) (id : value) (callback : callback) : M table unit :=
  try_catch
    (query_delete ε 0 id;;
     invoke callback None RUndef)
    (fun err => invoke callback (Some err) RUndef).

Definition list (ε : env) (callback : callback) : M table unit :=
  try_catch
    (rows ← query_select_all ε 0;
     invoke callback None (RRows rows))
    (fun err => invoke callback (Some err) RUndef).

End Driver.

End PostgresPersistency.

(** ** The document-service adapter: [SupabasePersistency] *)

Module SupabasePersistency.
Import Relational.

(** The [{ data, error }] a query builder resolves to; it does not reject. *)
Record response := Response {
  data : list row;
  error : option js_error
}.

Section Service.

Variable encode_other : value -> string.

(** [.from('process_instances').insert([{ id, doc }]).select()] *)
Definition insert_select (ε : env) (n : nat) (id : value) (doc : gmap string value) :
  M table response :=
  fun s => match fault ε n with
           | Some e => (inr (Response [] (Some e)), s)
           | None =>
               match insert_row encode_other (now ε) id (JSON_stringify_object doc) (store s) with
               | inl e => (inr (Response [] (Some e)), s)
               | inr (tbl, rows) => (inr (Response rows None), State (heap s) tbl (calls s))
               end
           end.

(** [.select('*').eq('id', id)]; the filter is written [`eq.${id}`]. *)
Definition select_eq (ε : env) (n : nat) (id : value) : M table response :=
  fun s => match fault ε n with
           | Some e => (inr (Response [] (Some e)), s)
           | None => (inr (Response (select_by_id (Some (ToString id)) (store s)) None), s)
           end.

(** [.update({ doc, updated_at }).eq('id', id).select()] *)
Definition update_eq_select (ε : env) (n : nat) (doc : gmap string value) (updated_at : Z)
  (id : value) : M table response :=
  fun s => match fault ε n with
           | Some e => (inr (Response [] (Some e)), s)
           | None =>
               let '(tbl, rows) :=
                 update_row updated_at (Some (ToString id)) (JSON_stringify_object doc) (store s) in
               (inr (Response rows None), State (heap s) tbl (calls s))
           end.

(** [.delete().eq('id', id)] *)
Definition delete_eq (ε : env) (n : nat) (id : value) : M table response :=
  fun s => match fault ε n with
           | Some e => (inr (Response [] (Some e)), s)
           | None =>
               (inr (Response [] None),
                State (heap s) (delete_row (Some (ToString id)) (store s)) (calls s))
           end.

(** [.select('*')] *)
Definition select_star (ε : env) (n : nat) : M table response :=
  fun s => match fault ε n with
           | Some e => (inr (Response [] (Some e)), s)
           | None => (inr (Response (select_all (store s)) None), s)
           end.

(** [if (error) { throw error; }] *)
Definition throw_if (e : option js_error) : M table unit :=
  match e with
  | Some e => throw e
  | None => ret tt
  end.

Definition save (ε : env) (doc : loc) (callback : callback) : M table unit :=
  try_catch
    (d ← get_prop doc "id";
     let id := id_or_uuid ε d in
     set_prop doc "id" id;;
     o ← deref doc;
     r ← insert_select ε 0 id o;
     throw_if (error r);;
     invoke callback None (first_row (data r)))
    (fun err => invoke callback (Some err) RUndef).

Definition get (ε : env) (id : value) (callback : callback) : M table unit :=
  try_catch
    (r ← select_eq ε 0 id;
     throw_if (error r);;
     invoke callback None (first_row (data r)))
    (fun err => invoke callback (Some err) RUndef).

Definition update (ε : env) (doc : loc) (callback : callback) : M table unit :=
  try_catch
    (d ← get_prop doc "id";
     (if truthy d then ret tt
      else throw (Error "Document must have an id to be updated."));;
     o ← deref doc;
     r ← update_eq_select ε 0 o (now ε) d;
     throw_if (error r);;
     invoke callback None (first_row (data r)))
    (fun err => invoke callback (Some err) RUndef).

Definition remove (ε : env) (id : value) (callback : callback) : M table unit :=
  try_catch
    (r ← delete_eq ε 0 id;
     throw_if (error r);;
     invoke callback None RUndef)
    (fun err => invoke callback (Some err) RUndef).

Definition list (ε : env) (callback : callback) : M table unit :=
  try_catch
    (r ← select_star ε 0;
     throw_if (error r);;
     invoke callback None (RRows (data r)))
    (fun err => invoke callback (Some err) RUndef).

End Service.

End SupabasePersistency.

(** ** The facade: [Persistency] *)

Module Facade.

(** What [require(path)] evaluates to: an object of named bindings
    ([exports.Name = ...]) or a class ([module.exports = Name]) with its
    prototype methods. *)
Inductive module_exports (C : Type) : Type :=
  | NamedExports (bindings : gmap string C)
  | ClassExport (name : string) (methods : list string).
Arguments NamedExports {C} _.
Arguments ClassExport {C} _ _.

(** [require(path).Persistency]; the classes have no static member, so the
    property is [undefined] on them. *)
Definition Persistency_of {C} (m : module_exports C) : option C :=
  match m with
  | NamedExports bindings => bindings !! "Persistency"
  | ClassExport _ _ => None
  end.

(** [module.exports = PostgresPersistency] and its two siblings. *)
Definition postgresql_js {C} : module_exports C :=
  ClassExport "PostgresPersistency" ["save"; "get"; "update"; "remove"; "list"].

Definition supabase_js {C} : module_exports C :=
  ClassExport "SupabasePersistency" ["save"; "get"; "update"; "remove"; "list"].

Definition redis_js {C} : module_exports C :=
  ClassExport "RedisPersistency" ["save"; "get"; "update"; "remove"; "list"].

(** [v.name] for a value that is neither [null] nor [undefined]. *)
Definition property (v : value) (name : string) : value :=
  match v with
  | VObj o => default VUndef (o !! name)
  | _ => VUndef
  end.

(** [uri.indexOf(prefix) === 0]: the string method, the array method, and
    no method at all on the other values. *)
Definition indexOf_is_0 (uri : value) (prefix : string) : js_error + bool :=
  match uri with
  | VStr s => inr (String.prefix prefix s)
  | VArr l => inr (match l with
                   | VStr s :: _ => String.eqb s prefix
                   | _ => false
                   end)
  | _ => inl (TypeError "uri.indexOf is not a function")
  end.

Section Adapters.

(** The contents of the store behind the adapter. *)
Context {W : Type}.

(** An adapter object: its methods by name, each taking its arguments and
    the completion callback. *)
Definition method : Type := list value -> callback -> M W unit.

Definition constructor : Type := list value -> js_error + gmap string method.

(** The two modules of the engine that the facade binds besides the three
    above, [./file.js] and [./mongodb.js]. *)
Variable file_js mongodb_js : module_exports constructor.

(** [new C(args)] *)
Definition new (c : option constructor) (name : string) (args : list value) :
  js_error + gmap string method :=
  match c with
  | Some k => k args
  | None => inl (TypeError (name +:+ " is not a constructor"))
  end.

Definition FilePersistency := Persistency_of file_js.
Definition MongoDBPersistency := Persistency_of mongodb_js.
Definition PostgresPersistency := Persistency_of (@postgresql_js constructor).
Definition SupabasePersistency := Persistency_of (@supabase_js constructor).
Definition RedisPersistency := Persistency_of (@redis_js constructor).

Record facade := Bind {
  implementation : gmap string method
}.

(** The scheme after the missing-uri guard. *)
Definition select_implementation (uri options : value) : js_error + gmap string method :=
  match indexOf_is_0 uri "mongodb://" with
  | inl e => inl e
  | inr true => new MongoDBPersistency "MongoDBPersistency" [uri; options]
  | inr false =>
  match indexOf_is_0 uri "postgres://" with
  | inl e => inl e
  | inr true => new PostgresPersistency "PostgresPersistency" [options]
  | inr false =>
  match indexOf_is_0 uri "supabase://" with
  | inl e => inl e
  | inr true => new SupabasePersistency "SupabasePersistency" [options]
  | inr false =>
  match indexOf_is_0 uri "redis://" with
  | inl e => inl e
  | inr true => new RedisPersistency "RedisPersistency" [options]
  | inr false => new FilePersistency "FilePersistency" [uri]
  end end end end.

(** [new Persistency(options)] *)
Definition Persistency (options : value) : js_error + facade :=
  if negb (truthy options) || negb (truthy (property options "uri"))
  then inl (Error "Persistency options must contain an uri property.")
  else
    match select_implementation (property options "uri") options with
    | inl e => inl e
    | inr impl => inr (Bind impl)
    end.

(** [this.implementation.name(args, done)] *)
Definition call_method (impl : gmap string method) (name : string) (args : list value)
  (done : callback) : M W unit :=
  match impl !! name with
  | Some m => m args done
  | None => throw (TypeError ("this.implementation." +:+ name +:+ " is not a function"))
  end.

Definition persist (this : facade) (persistentData : value) (done : callback) : M W unit :=
  call_method (implementation this) "persist" [persistentData] done.

Definition load (this : facade) (processId processName : value) (done : callback) : M W unit :=
  call_method (implementation this) "load" [processId; processName] done.

Definition loadAll (this : facade) (processName : value) (done : callback) : M W unit :=
  call_method (implementation this) "loadAll" [processName] done.

Definition close (this : facade) (done : callback) : M W unit :=
  call_method (implementation this) "close" [] done.

End Adapters.

End Facade.


(** ** Sample inputs *)

Module Sample.

Definition id_1 : uuid :=
  Uuid "3f2b8c1e-7a4d-4e9b-9c6a-5d1f0e2b7a90" eq_refl.

(** A callback that returns, and one that throws on a success. *)
Definition quiet : callback := fun _ => None.

Definition throwing : callback :=
  fun i => match inv_err i with
           | None => Some (Error "handler failed")
           | Some _ => None
           end.

(** No request fails; every request fails. *)
Definition online : env := Env id_1 (fun _ => None) 1700000000000.

Definition offline : env := Env id_1 (fun _ => Some (ClientError "ECONNREFUSED")) 1700000000000.

Definition later : env := Env id_1 (fun _ => None) 1700000360000.

(** [{ name: "order-1" }] *)
Definition order_1 : gmap string value := {[ "name" := VStr "order-1" ]}.

(** [{ id: "a-17", name: "order-2" }] *)
Definition order_2 : gmap string value :=
  <[ "id" := VStr "a-17" ]> {[ "name" := VStr "order-2" ]}.

(** An identifier of 51 characters, and a document that carries it. *)
Definition long_id : string := "instance-000000000000000000000000000000000000000051".

Definition order_3 : gmap string value := {[ "id" := VStr long_id ]}.

(** A row stored earlier under ["a-17"]. *)
Definition old_row : Relational.stored :=
  Relational.Stored (JObj {[ "id" := JStr "a-17" ]}) 1600000000000 1600000000000.

(** [{ id: 0, name: "order-0" }] *)
Definition order_0 : gmap string value :=
  <[ "id" := VNum 0 ]> {[ "name" := VStr "order-0" ]}.

(** [{ id: 17 }] *)
Definition order_5 : gmap string value := {[ "id" := VNum 17 ]}.

(** An identifier of 50 characters followed by a blank, and a document that
    carries it. *)
Definition padded_id : string := "instance-00000000000000000000000000000000000000050 ".

Definition order_4 : gmap string value := {[ "id" := VStr padded_id ]}.

(** An identifier of 30 characters in 60 bytes. *)
Definition accented_id : string := "éééééééééééééééééééééééééééééé".


Definition encode : value -> string := ToString.

(** An adapter with the four operations of the facade, each answering
    through the callback, and the two modules that export it the way the
    facade imports them. *)
Definition echo : gmap string (@Facade.method unit) :=
  {[ "persist" := fun args done => invoke done None (RVal (VArr args));
     "load" := fun args done => invoke done None (RVal (VArr args));
     "loadAll" := fun args done => invoke done None (RVal (VArr args));
     "close" := fun _ done => invoke done None RUndef ]}.

Definition file_js : Facade.module_exports (@Facade.constructor unit) :=
  Facade.NamedExports {[ "Persistency" := fun _ => inr echo ]}.

Definition mongodb_js : Facade.module_exports (@Facade.constructor unit) :=
  Facade.NamedExports {[ "Persistency" := fun _ => inr echo ]}.

End Sample.

(** * Properties *)

(** ** Serialisation *)

Section Folds.

Context {A : Type}.

Lemma map_fold_andb (p : A -> bool) (m : gmap string A) :
  map_fold (fun _ x acc => p x && acc) true m = true <->
  map_Forall (fun _ x => p x = true) m.
Proof.
  induction m as [|k x m Hk IH] using map_ind.
  - rewrite map_fold_empty. split; [intros _; apply map_Forall_empty | done].
  - rewrite map_fold_insert_L; [| |done].
    + rewrite map_Forall_insert by done. rewrite andb_true_iff, IH. done.
    + intros. destruct (p z1), (p z2); done.
Qed.

Lemma map_fold_plus_lookup (f : A -> nat) (m : gmap string A) k x :
  m !! k = Some x ->
  (f x <= map_fold (fun _ y acc => f y + acc) 0 m)%nat.
Proof.
  induction m as [|i y m Hi IH] using map_ind; [done|].
  rewrite map_fold_insert_L; [| intros; lia | done].
  intros Hl. destruct (decide (i = k)) as [->|Hne].
  - rewrite lookup_insert_eq in Hl. injection Hl as ->. lia.
  - rewrite lookup_insert_ne in Hl by done. specialize (IH Hl). lia.
Qed.

End Folds.

Lemma value_size_elem (l : list value) x :
  x ∈ l -> (value_size x < value_size (VArr l))%nat.
Proof.
  simpl. induction l as [|y l IH]; intros Hx.
  - by apply elem_of_nil in Hx.
  - apply elem_of_cons in Hx as [->|Hx]; simpl; [lia|]. specialize (IH Hx). lia.
Qed.

Lemma value_size_lookup (o : gmap string value) k x :
  o !! k = Some x -> (value_size x < value_size (VObj o))%nat.
Proof.
  intros Hl. simpl.
  pose proof (map_fold_plus_lookup value_size o k x Hl). lia.
Qed.

(** Induction on values, through arrays and objects. *)
Lemma value_induction (P : value -> Prop) :
  P VUndef -> P VNull -> (forall b, P (VBool b)) -> (forall n, P (VNum n)) ->
  (forall s, P (VStr s)) ->
  (forall l, Forall P l -> P (VArr l)) ->
  (forall o, map_Forall (fun _ x => P x) o -> P (VObj o)) ->
  forall v, P v.
Proof.
  intros HU HN HB HZ HS HA HO v.
  remember (value_size v) as n eqn:Hn.
  revert v Hn. induction n as [n IH] using lt_wf_ind. intros v ->.
  destruct v; auto.
  - apply HA, Forall_forall. intros x Hx.
    apply (IH (value_size x)); [by apply value_size_elem | done].
  - apply HO. intros k x Hk.
    apply (IH (value_size x)); [by eapply value_size_lookup | done].
Qed.

Lemma json_representable_obj (o : gmap string value) :
  json_representable (VObj o) = true <->
  map_Forall (fun _ x => json_representable x = true) o.
Proof. simpl. apply map_fold_andb. Qed.

(** [JSON.parse(JSON.stringify(v))] is [v] for the values JSON represents. *)
Lemma JSON_round_trip (v : value) :
  json_representable v = true ->
  JSON_parse <$> JSON_stringify v = Some v.
Proof.
  induction v as [| | | | |l IH|o IH] using value_induction; intros Hv; try done.
  - simpl in *. do 2 f_equal.
    induction l as [|x l IHl]; [done|].
    simpl in Hv. apply andb_true_iff in Hv as [Hx Hl].
    apply Forall_cons in IH as [IHx IH].
    simpl. rewrite (IHl IH Hl). f_equal.
    specialize (IHx Hx). destruct (JSON_stringify x); simpl in *; congruence.
  - apply json_representable_obj in Hv. simpl. do 2 f_equal.
    apply map_eq. intros k. rewrite lookup_fmap, lookup_omap.
    destruct (o !! k) as [x|] eqn:Hk; [|done]. simpl.
    specialize (IH k x Hk (Hv k x Hk)).
    destruct (JSON_stringify x); simpl in *; congruence.
Qed.

Lemma JSON_round_trip_object (o : gmap string value) :
  json_representable (VObj o) = true ->
  JSON_parse (JSON_stringify_object o) = VObj o.
Proof.
  intros Hv. apply JSON_round_trip in Hv. simpl in Hv.
  unfold JSON_stringify_object. simpl. congruence.
Qed.

(** ** Running the adapters *)

Ltac unfold_monad :=
  unfold final, run, try_catch, mbind, M_bind, bind, mret, M_ret, ret, throw,
    invoke, get_prop, set_prop, deref in *.

Ltac unfold_redis :=
  unfold RedisPersistency.save, RedisPersistency.get, RedisPersistency.update,
    RedisPersistency.remove, RedisPersistency.list,
    RedisPersistency.setAsync, RedisPersistency.getAsync, RedisPersistency.delAsync,
    RedisPersistency.keysAsync, RedisPersistency.mgetAsync in *.

Ltac unfold_postgres :=
  unfold PostgresPersistency.save, PostgresPersistency.get, PostgresPersistency.update,
    PostgresPersistency.remove, PostgresPersistency.list,
    PostgresPersistency.query_insert, PostgresPersistency.query_select,
    PostgresPersistency.query_update, PostgresPersistency.query_delete,
    PostgresPersistency.query_select_all in *.

Ltac unfold_supabase :=
  unfold SupabasePersistency.save, SupabasePersistency.get, SupabasePersistency.update,
    SupabasePersistency.remove, SupabasePersistency.list,
    SupabasePersistency.insert_select, SupabasePersistency.select_eq,
    SupabasePersistency.update_eq_select, SupabasePersistency.delete_eq,
    SupabasePersistency.select_star, SupabasePersistency.throw_if in *.

Ltac unfold_adapters := unfold_redis; unfold_postgres; unfold_supabase; unfold_monad.

(** A generated identifier is not empty and fits the key column. *)
Lemma uuid_text_nonempty (u : uuid) : uuid_text u <> "".
Proof.
  destruct u as [s Hs]. simpl. intros ->. discriminate Hs.
Qed.


(** A text has at most as many characters as bytes. *)
Lemma char_length_le (s : string) : (Relational.char_length s <= String.length s)%nat.
Proof.
  induction s as [|c s IH]; simpl; [lia|].
  destruct (Relational.continuation c); lia.
Qed.

Lemma varchar_fits_chars (n : nat) (s : string) :
  (Relational.char_length s <= n)%nat -> Relational.varchar n s = Some s.
Proof.
  intros Hn. unfold Relational.varchar.
  destruct (Nat.leb_spec (Relational.char_length s) n); [done | lia].
Qed.

Lemma varchar_fits (n : nat) (s : string) :
  (String.length s <= n)%nat -> Relational.varchar n s = Some s.
Proof.
  intros Hn. apply varchar_fits_chars. pose proof (char_length_le s). lia.
Qed.

Lemma uuid_varchar (u : uuid) : Relational.varchar 50 (uuid_text u) = Some (uuid_text u).
Proof. apply varchar_fits. rewrite (uuid_length u). lia. Qed.


Lemma id_or_uuid_present ε d : truthy d = true -> id_or_uuid ε d = d.
Proof. unfold id_or_uuid. by intros ->. Qed.

Lemma id_or_uuid_missing ε d :
  truthy d = false -> id_or_uuid ε d = VStr (uuid_text (uuidv4 ε)).
Proof. unfold id_or_uuid. by intros ->. Qed.

(** ** Update without an identifier *)

(** C5.  A document without an id is refused by [update] on each of the
    three adapters with the validation error, whatever the store client
    would have answered; heap and store are as before and the callback has
    been called once, with that error. *)
Theorem update_without_id_rejected
  (encode_other : value -> string) (ε : env) (doc : loc) (o : gmap string value)
  (cb : callback) (h : gmap loc (gmap string value)) :
  h !! doc = Some o ->
  truthy (default VUndef (o !! "id")) = false ->
  exists e, ValidationError e /\
    (forall b, final (RedisPersistency.update ε doc cb) h b
               = State h b [Invoke (Some e) RUndef]) /\
    (forall t, final (PostgresPersistency.update encode_other ε doc cb) h t
               = State h t [Invoke (Some e) RUndef]) /\
    (forall t, final (SupabasePersistency.update ε doc cb) h t
               = State h t [Invoke (Some e) RUndef]).
Proof.
  intros Hh Hid. eexists. split; [reflexivity|].
  repeat split; intros; unfold_adapters; simpl; rewrite Hh; simpl; rewrite Hid; reflexivity.
Qed.

Lemma update_without_id_rejected_witness :
  ({[1%positive := Sample.order_1]} : gmap loc (gmap string value)) !! 1%positive
    = Some Sample.order_1 /\
  truthy (default VUndef (Sample.order_1 !! "id")) = false /\
  exists e, ValidationError e /\
    (forall b, final (RedisPersistency.update Sample.offline 1%positive Sample.throwing)
                 {[1%positive := Sample.order_1]} b
               = State {[1%positive := Sample.order_1]} b [Invoke (Some e) RUndef]) /\
    (forall t, final (PostgresPersistency.update Sample.encode Sample.offline 1%positive
                        Sample.throwing) {[1%positive := Sample.order_1]} t
               = State {[1%positive := Sample.order_1]} t [Invoke (Some e) RUndef]) /\
    (forall t, final (SupabasePersistency.update Sample.offline 1%positive Sample.throwing)
                 {[1%positive := Sample.order_1]} t
               = State {[1%positive := Sample.order_1]} t [Invoke (Some e) RUndef]).
Proof.
  split; [reflexivity|]. split; [reflexivity|].
  apply (update_without_id_rejected Sample.encode Sample.offline 1%positive Sample.order_1);
    reflexivity.
Defined.


(** ** What each operation does *)

Ltac case_callback :=
  repeat match goal with
         | |- context [match ?cb ?i with _ => _ end] =>
             is_var cb; destruct (cb i)
         end.

Ltac read_heap Hh :=
  repeat (progress (rewrite ?Hh, ?lookup_insert_eq; simpl)).

Ltac execute :=
  unfold_adapters; unfold completion, Relational.select_row, JSON_stringify_object; simpl;
  repeat (progress (repeat match goal with
                           | H : _ = _ |- _ => rewrite H
                           end;
                    rewrite ?lookup_insert_eq; simpl));
  unfold Relational.select_row; simpl;
  case_callback; simpl; try reflexivity.

Section Redis.

Import RedisPersistency.

Variables (ε : env) (cb : callback) (h : gmap loc (gmap string value)) (b : gmap string text).

Lemma redis_save_ok doc o :
  h !! doc = Some o -> fault ε 0 = None ->
  let id := id_or_uuid ε (default VUndef (o !! "id")) in
  let o' := <["id" := id]> o in
  final (save ε doc cb) h b
  = State (<[doc := o']> h)
      (<["process_instance:" +:+ ToString id := JsonText (JSON_stringify_object o')]> b)
      (completion cb (Invoke None (RRef doc))).
Proof.
  intros Hh Hε id o'. subst id o'. execute.
Qed.

Lemma redis_save_fault doc o e :
  h !! doc = Some o -> fault ε 0 = Some e ->
  final (save ε doc cb) h b
  = State (<[doc := <["id" := id_or_uuid ε (default VUndef (o !! "id"))]> o]> h) b
      [Invoke (Some e) RUndef].
Proof.
  intros Hh Hε. execute.
Qed.

Lemma redis_get_missing id :
  fault ε 0 = None -> b !! ("process_instance:" +:+ ToString id) = None ->
  final (get ε id cb) h b = State h b (completion cb (Invoke None RNull)).
Proof. intros Hε Hb. execute. Qed.

Lemma redis_get_found id j :
  fault ε 0 = None -> b !! ("process_instance:" +:+ ToString id) = Some (JsonText j) ->
  final (get ε id cb) h b = State h b (completion cb (Invoke None (RVal (JSON_parse j)))).
Proof. intros Hε Hb. execute. Qed.

Lemma redis_update_ok doc o :
  h !! doc = Some o -> truthy (default VUndef (o !! "id")) = true -> fault ε 0 = None ->
  final (update ε doc cb) h b
  = State h
      (<["process_instance:" +:+ ToString (default VUndef (o !! "id"))
         := JsonText (JSON_stringify_object o)]> b)
      (completion cb (Invoke None (RRef doc))).
Proof. intros Hh Hid Hε. execute. Qed.

Lemma redis_remove_ok id :
  fault ε 0 = None ->
  final (remove ε id cb) h b
  = State h (delete ("process_instance:" +:+ ToString id) b)
      (completion cb (Invoke None RUndef)).
Proof. intros Hε. execute. Qed.

End Redis.

Lemma truthy_string (s : string) : s <> "" -> String.eqb s "" = false.
Proof. intros Hs. by apply String.eqb_neq. Qed.

#[local] Arguments Relational.varchar : simpl never.
#[local] Arguments id_or_uuid : simpl never.

Section Postgres.

Import Relational PostgresPersistency.

Variables (encode_other : value -> string) (ε : env) (cb : callback).
Variables (h : gmap loc (gmap string value)) (t : gmap string stored).

Lemma postgres_save_ok doc o s :
  h !! doc = Some o -> fault ε 0 = None ->
  id_or_uuid ε (default VUndef (o !! "id")) = VStr s ->
  (String.length s <= 50)%nat -> t !! s = None ->
  let o' := <["id" := VStr s]> o in
  final (save encode_other ε doc cb) h t
  = State (<[doc := o']> h)
      (<[s := Stored (JSON_stringify_object o') (now ε) (now ε)]> t)
      (completion cb (Invoke None
         (RRow (Row s (JSON_parse (JSON_stringify_object o')) (now ε) (now ε))))).
Proof.
  intros Hh Hε Hid Hlen%(varchar_fits 50) Ht o'. subst o'.
  unfold_adapters. simpl. read_heap Hh.
  rewrite Hε, Hid. unfold insert_row. simpl. rewrite Hlen, Ht. simpl.
  unfold completion, select_row, JSON_stringify_object. simpl.
  case_callback; reflexivity.
Qed.

Lemma postgres_save_heap doc o b :
  h !! doc = Some o ->
  heap (final (save encode_other ε doc cb) h b) !! doc
  = Some (<["id" := id_or_uuid ε (default VUndef (o !! "id"))]> o).
Proof.
  intros Hh. unfold_adapters. simpl. read_heap Hh.
  destruct (fault ε 0); simpl.
  - case_callback; simpl; apply lookup_insert_eq.
  - destruct (insert_row _ _ _ _ _) as [e|[tbl rows]]; simpl;
      case_callback; simpl; apply lookup_insert_eq.
Qed.

Lemma postgres_get_missing s :
  fault ε 0 = None -> t !! s = None ->
  final (get encode_other ε (VStr s) cb) h t = State h t (completion cb (Invoke None RUndef)).
Proof. intros Hε Ht. unfold select_by_id. execute. Qed.

Lemma postgres_get_found s r :
  fault ε 0 = None -> t !! s = Some r ->
  final (get encode_other ε (VStr s) cb) h t
  = State h t (completion cb (Invoke None (RRow (select_row s r)))).
Proof. intros Hε Ht. unfold select_by_id. execute. Qed.

Lemma postgres_update_missing doc o s :
  h !! doc = Some o -> o !! "id" = Some (VStr s) -> s <> "" ->
  fault ε 0 = None -> t !! s = None ->
  final (update encode_other ε doc cb) h t = State h t (completion cb (Invoke None RUndef)).
Proof.
  intros Hh Hid Hs%truthy_string Hε Ht. unfold update_row. execute.
Qed.

Lemma postgres_remove_ok s :
  fault ε 0 = None ->
  final (remove encode_other ε (VStr s) cb) h t
  = State h (delete s t) (completion cb (Invoke None RUndef)).
Proof. intros Hε. unfold delete_row. execute. Qed.

End Postgres.

Section Supabase.

Import Relational SupabasePersistency.

Variables (encode_other : value -> string) (ε : env) (cb : callback).
Variables (h : gmap loc (gmap string value)) (t : gmap string stored).

Lemma supabase_save_ok doc o s :
  h !! doc = Some o -> fault ε 0 = None ->
  id_or_uuid ε (default VUndef (o !! "id")) = VStr s ->
  (String.length s <= 50)%nat -> t !! s = None ->
  let o' := <["id" := VStr s]> o in
  final (save encode_other ε doc cb) h t
  = State (<[doc := o']> h)
      (<[s := Stored (JSON_stringify_object o') (now ε) (now ε)]> t)
      (completion cb (Invoke None
         (RRow (Row s (JSON_parse (JSON_stringify_object o')) (now ε) (now ε))))).
Proof.
  intros Hh Hε Hid Hlen%(varchar_fits 50) Ht o'. subst o'.
  unfold_adapters. simpl. read_heap Hh.
  rewrite Hε, Hid. unfold insert_row. simpl. rewrite Hlen, Ht. simpl.
  unfold completion, select_row, JSON_stringify_object. simpl.
  case_callback; reflexivity.
Qed.

Lemma supabase_save_heap doc o b :
  h !! doc = Some o ->
  heap (final (save encode_other ε doc cb) h b) !! doc
  = Some (<["id" := id_or_uuid ε (default VUndef (o !! "id"))]> o).
Proof.
  intros Hh. unfold_adapters. simpl. read_heap Hh.
  destruct (fault ε 0); simpl.
  - case_callback; simpl; apply lookup_insert_eq.
  - destruct (insert_row _ _ _ _ _) as [e|[tbl rows]]; simpl;
      case_callback; simpl; apply lookup_insert_eq.
Qed.

Lemma supabase_get_missing s :
  fault ε 0 = None -> t !! s = None ->
  final (get ε (VStr s) cb) h t = State h t (completion cb (Invoke None RUndef)).
Proof. intros Hε Ht. unfold select_by_id. execute. Qed.

Lemma supabase_get_found s r :
  fault ε 0 = None -> t !! s = Some r ->
  final (get ε (VStr s) cb) h t
  = State h t (completion cb (Invoke None (RRow (select_row s r)))).
Proof. intros Hε Ht. unfold select_by_id. execute. Qed.

Lemma supabase_update_missing doc o s :
  h !! doc = Some o -> o !! "id" = Some (VStr s) -> s <> "" ->
  fault ε 0 = None -> t !! s = None ->
  final (update ε doc cb) h t = State h t (completion cb (Invoke None RUndef)).
Proof.
  intros Hh Hid Hs%truthy_string Hε Ht. unfold update_row. execute.
Qed.

Lemma supabase_remove_ok s :
  fault ε 0 = None ->
  final (remove ε (VStr s) cb) h t
  = State h (delete s t) (completion cb (Invoke None RUndef)).
Proof. intros Hε. unfold delete_row. execute. Qed.

End Supabase.

(** The same for an identifier of any kind, and for a string identifier
    measured in characters. *)
Section AnyIdentifier.

Import Relational.

Variables (encode_other : value -> string) (ε : env) (cb : callback).
Variables (h : gmap loc (gmap string value)) (t : gmap string stored).

Lemma select_by_id_none (k : option string) :
  (forall s, k = Some s -> t !! s = None) -> select_by_id k t = [].
Proof.
  intros Hk. unfold select_by_id. destruct k as [s|]; [|done]. by rewrite (Hk s).
Qed.

Lemma postgres_get_no_row id :
  fault ε 0 = None ->
  (forall k, id_text encode_other id = Some k -> t !! k = None) ->
  final (PostgresPersistency.get encode_other ε id cb) h t
  = State h t (completion cb (Invoke None RUndef)).
Proof.
  intros Hε Hk%select_by_id_none. unfold_adapters. unfold completion. simpl.
  rewrite Hε. simpl. rewrite Hk. simpl. case_callback; reflexivity.
Qed.

Lemma supabase_get_no_row id :
  fault ε 0 = None -> t !! ToString id = None ->
  final (SupabasePersistency.get ε id cb) h t
  = State h t (completion cb (Invoke None RUndef)).
Proof. intros Hε Ht. unfold select_by_id. execute. Qed.

Lemma postgres_remove_any id :
  fault ε 0 = None ->
  final (PostgresPersistency.remove encode_other ε id cb) h t
  = State h (delete_row (id_text encode_other id) t) (completion cb (Invoke None RUndef)).
Proof. intros Hε. execute. Qed.

Lemma supabase_remove_any id :
  fault ε 0 = None ->
  final (SupabasePersistency.remove ε id cb) h t
  = State h (delete (ToString id) t) (completion cb (Invoke None RUndef)).
Proof. intros Hε. unfold delete_row. execute. Qed.

Lemma postgres_save_chars doc o s :
  h !! doc = Some o -> fault ε 0 = None ->
  id_or_uuid ε (default VUndef (o !! "id")) = VStr s ->
  (char_length s <= 50)%nat -> t !! s = None ->
  let o' := <["id" := VStr s]> o in
  final (PostgresPersistency.save encode_other ε doc cb) h t
  = State (<[doc := o']> h)
      (<[s := Stored (JSON_stringify_object o') (now ε) (now ε)]> t)
      (completion cb (Invoke None
         (RRow (Row s (JSON_parse (JSON_stringify_object o')) (now ε) (now ε))))).
Proof.
  intros Hh Hε Hid Hlen%(varchar_fits_chars 50) Ht o'. subst o'.
  unfold_adapters. simpl. read_heap Hh.
  rewrite Hε, Hid. unfold insert_row. simpl. rewrite Hlen, Ht. simpl.
  unfold completion, select_row, JSON_stringify_object. simpl.
  case_callback; reflexivity.
Qed.

Lemma supabase_save_chars doc o s :
  h !! doc = Some o -> fault ε 0 = None ->
  id_or_uuid ε (default VUndef (o !! "id")) = VStr s ->
  (char_length s <= 50)%nat -> t !! s = None ->
  let o' := <["id" := VStr s]> o in
  final (SupabasePersistency.save encode_other ε doc cb) h t
  = State (<[doc := o']> h)
      (<[s := Stored (JSON_stringify_object o') (now ε) (now ε)]> t)
      (completion cb (Invoke None
         (RRow (Row s (JSON_parse (JSON_stringify_object o')) (now ε) (now ε))))).
Proof.
  intros Hh Hε Hid Hlen%(varchar_fits_chars 50) Ht o'. subst o'.
  unfold_adapters. simpl. read_heap Hh.
  rewrite Hε, Hid. unfold insert_row. simpl. rewrite Hlen, Ht. simpl.
  unfold completion, select_row, JSON_stringify_object. simpl.
  case_callback; reflexivity.
Qed.

End AnyIdentifier.

Lemma reports_completion {B} (h : gmap loc (gmap string value)) (b : B) cb i :
  reports (State h b (completion cb i)) i.
Proof. reflexivity. Qed.

(** ** Reading an identifier that is not stored *)

(** C6, as stated, fails on the relational adapters: [get] of an
    identifier that was never saved calls [callback(null, rows[0])] on an
    empty result, that is with no error and with no result either, not with
    an explicit not-found value. *)
Lemma get_unknown_id_counterexample :
  (∅ : gmap string Relational.stored) !! "a-17" = None /\
  calls (final (PostgresPersistency.get Sample.encode Sample.online (VStr "a-17") Sample.quiet)
           ∅ ∅) = [Invoke None RUndef] /\
  calls (final (SupabasePersistency.get Sample.online (VStr "a-17") Sample.quiet) ∅ ∅)
  = [Invoke None RUndef] /\
  ~ (exists r, r <> RUndef /\
       reports (final (PostgresPersistency.get Sample.encode Sample.online (VStr "a-17")
                         Sample.quiet) ∅ ∅) (Invoke None r)) /\
  ~ (exists r, r <> RUndef /\
       reports (final (SupabasePersistency.get Sample.online (VStr "a-17") Sample.quiet) ∅ ∅)
         (Invoke None r)).
Proof.
  split; [reflexivity|]. split; [vm_compute; reflexivity|]. split; [vm_compute; reflexivity|].
  split; intros (r & Hr & H); vm_compute in H; injection H as <-; by apply Hr.
Qed.

(** C6, amended.  When the request to the store goes through, [get] of an
    identifier of any kind under which nothing is stored raises no error and
    changes nothing: the whole log is the one success signal (followed by
    the call of the [catch] block only when the callback itself throws),
    with the explicit [null] on Redis and with no result ([undefined]) on
    Postgres and Supabase.  The same holds for an identifier that has just
    been removed. *)
Theorem get_unknown_id_not_found
  (encode_other : value -> string) (ε : env) (id : value) (cb : callback)
  (h : gmap loc (gmap string value)) :
  fault ε 0 = None ->
  (forall b, b !! ("process_instance:" +:+ ToString id) = None ->
     final (RedisPersistency.get ε id cb) h b
     = State h b (completion cb (Invoke None RNull))) /\
  (forall t, (forall k, Relational.id_text encode_other id = Some k -> t !! k = None) ->
     final (PostgresPersistency.get encode_other ε id cb) h t
     = State h t (completion cb (Invoke None RUndef))) /\
  (forall t, t !! ToString id = None ->
     final (SupabasePersistency.get ε id cb) h t
     = State h t (completion cb (Invoke None RUndef))) /\
  (forall ε' cb' b, fault ε' 0 = None ->
     let removed := final (RedisPersistency.remove ε' id cb') h b in
     final (RedisPersistency.get ε id cb) (heap removed) (store removed)
     = State h (store removed) (completion cb (Invoke None RNull))) /\
  (forall ε' cb' t, fault ε' 0 = None ->
     let removed := final (PostgresPersistency.remove encode_other ε' id cb') h t in
     final (PostgresPersistency.get encode_other ε id cb) (heap removed) (store removed)
     = State h (store removed) (completion cb (Invoke None RUndef))) /\
  (forall ε' cb' t, fault ε' 0 = None ->
     let removed := final (SupabasePersistency.remove ε' id cb') h t in
     final (SupabasePersistency.get ε id cb) (heap removed) (store removed)
     = State h (store removed) (completion cb (Invoke None RUndef))).
Proof.
  intros Hε. repeat apply conj.
  - intros b Hb. by apply redis_get_missing.
  - intros t Ht. by apply postgres_get_no_row.
  - intros t Ht. by apply supabase_get_no_row.
  - intros ε' cb' b Hε' removed. subst removed.
    rewrite redis_remove_ok by done. simpl.
    apply redis_get_missing; [done | apply lookup_delete_eq].
  - intros ε' cb' t Hε' removed. subst removed.
    rewrite postgres_remove_any by done. simpl.
    apply postgres_get_no_row; [done|].
    intros k Hk. rewrite Hk. simpl. apply lookup_delete_eq.
  - intros ε' cb' t Hε' removed. subst removed.
    rewrite supabase_remove_any by done. simpl.
    apply supabase_get_no_row; [done | apply lookup_delete_eq].
Qed.

Lemma get_unknown_id_not_found_witness :
  fault Sample.online 0 = None /\
  final (RedisPersistency.get Sample.online (VStr "a-17") Sample.quiet) ∅ ∅
  = State ∅ ∅ [Invoke None RNull] /\
  final (PostgresPersistency.get Sample.encode Sample.online (VStr "a-17") Sample.quiet) ∅ ∅
  = State ∅ ∅ [Invoke None RUndef] /\
  final (SupabasePersistency.get Sample.online (VNum 17) Sample.quiet) ∅ ∅
  = State ∅ ∅ [Invoke None RUndef].
Proof.
  split; [reflexivity|].
  pose proof (get_unknown_id_not_found Sample.encode Sample.online (VStr "a-17") Sample.quiet ∅
                eq_refl) as (HR & HP & _).
  pose proof (get_unknown_id_not_found Sample.encode Sample.online (VNum 17) Sample.quiet ∅
                eq_refl) as (_ & _ & HS & _).
  split; [apply HR; reflexivity|]. split; [apply HP; reflexivity | apply HS; reflexivity].
Defined.

(** ** Update of an identifier that is not stored *)

(** C2, as stated, fails on the relational adapter (and likewise on
    Supabase): [UPDATE ... WHERE id = 'a-17'] on an empty table matches no
    row and is no error, so the callback receives [(null, undefined)]. *)
Lemma update_unknown_id_counterexample :
  ({[1%positive := Sample.order_2]} : gmap loc (gmap string value)) !! 1%positive
    = Some Sample.order_2 /\
  Sample.order_2 !! "id" = Some (VStr "a-17") /\
  (∅ : gmap string Relational.stored) !! "a-17" = None /\
  ~ (exists e, StoreError e /\
       reports (final (PostgresPersistency.update Sample.encode Sample.online 1%positive
                         Sample.quiet) {[1%positive := Sample.order_2]} ∅)
         (Invoke (Some e) RUndef)) /\
  ~ (exists e, StoreError e /\
       reports (final (SupabasePersistency.update Sample.online 1%positive Sample.quiet)
                  {[1%positive := Sample.order_2]} ∅)
         (Invoke (Some e) RUndef)).
Proof.
  repeat split; try reflexivity.
  - intros (e & _ & H). vm_compute in H. discriminate H.
  - intros (e & _ & H). vm_compute in H. discriminate H.
Qed.

(** C2, amended.  For a document whose id is present but not stored, and a
    request that goes through: [update] on the Postgres and Supabase
    adapters signals success without a record and leaves the table as it
    was; [update] on the Redis adapter writes the document under its key and
    hands the document back. *)
Theorem update_unknown_id
  (encode_other : value -> string) (ε : env) (doc : loc) (o : gmap string value)
  (s : string) (cb : callback) (h : gmap loc (gmap string value)) :
  h !! doc = Some o -> o !! "id" = Some (VStr s) -> s <> "" -> fault ε 0 = None ->
  (forall t, t !! s = None ->
     final (PostgresPersistency.update encode_other ε doc cb) h t
     = State h t (completion cb (Invoke None RUndef))) /\
  (forall t, t !! s = None ->
     final (SupabasePersistency.update ε doc cb) h t
     = State h t (completion cb (Invoke None RUndef))) /\
  (forall b,
     final (RedisPersistency.update ε doc cb) h b
     = State h (<["process_instance:" +:+ s := RedisPersistency.JsonText (JSON_stringify_object o)]> b)
         (completion cb (Invoke None (RRef doc)))).
Proof.
  intros Hh Hid Hs Hε. repeat apply conj.
  - intros t Ht. by eapply postgres_update_missing.
  - intros t Ht. by eapply supabase_update_missing.
  - intros b. rewrite (redis_update_ok ε cb h b doc o Hh).
    + by rewrite Hid.
    + rewrite Hid. simpl. by rewrite truthy_string.
    + done.
Qed.

Lemma update_unknown_id_witness :
  ({[1%positive := Sample.order_2]} : gmap loc (gmap string value)) !! 1%positive
    = Some Sample.order_2 /\
  Sample.order_2 !! "id" = Some (VStr "a-17") /\
  "a-17" <> "" /\
  fault Sample.online 0 = None /\
  final (PostgresPersistency.update Sample.encode Sample.online 1%positive Sample.quiet)
    {[1%positive := Sample.order_2]} ∅
  = State {[1%positive := Sample.order_2]} ∅ [Invoke None RUndef] /\
  final (RedisPersistency.update Sample.online 1%positive Sample.quiet)
    {[1%positive := Sample.order_2]} ∅
  = State {[1%positive := Sample.order_2]}
      {["process_instance:a-17" := RedisPersistency.JsonText (JSON_stringify_object Sample.order_2)]}
      [Invoke None (RRef 1%positive)].
Proof.
  assert (Hne : "a-17" <> "") by discriminate.
  pose proof (update_unknown_id Sample.encode Sample.online 1%positive Sample.order_2 "a-17"
                Sample.quiet {[1%positive := Sample.order_2]} eq_refl eq_refl Hne eq_refl)
    as (HP & _ & HR).
  split; [reflexivity|]. split; [reflexivity|]. split; [exact Hne|]. split; [reflexivity|].
  split; [apply (HP ∅); reflexivity | apply (HR ∅)].
Defined.

(** ** Saving and reading back *)


(** The object after [doc.id = doc.id || uuidv4()]. *)
Lemma saved_document ε (o : gmap string value) :
  <["id" := id_or_uuid ε (default VUndef (o !! "id"))]> o
  = if truthy (default VUndef (o !! "id")) then o
    else <["id" := VStr (uuid_text (uuidv4 ε))]> o.
Proof.
  unfold id_or_uuid. destruct (o !! "id") as [v|] eqn:Hv; simpl.
  - destruct (truthy v); [by apply insert_id | done].
  - done.
Qed.





(** ** The identifier that [save] assigns or keeps *)

Lemma redis_save_heap ε cb h b doc o :
  h !! doc = Some o ->
  heap (final (RedisPersistency.save ε doc cb) h b) !! doc
  = Some (<["id" := id_or_uuid ε (default VUndef (o !! "id"))]> o).
Proof.
  intros Hh. destruct (fault ε 0) as [e|] eqn:Hε.
  - rewrite (redis_save_fault ε cb h b doc o e Hh Hε). apply lookup_insert_eq.
  - rewrite (redis_save_ok ε cb h b doc o Hh Hε). apply lookup_insert_eq.
Qed.

(** C4, as stated, fails for a pre-set id that [doc.id || uuidv4()] takes
    for missing: [{ id: 0, name: "order-0" }] is saved under the generated
    identifier, which replaces the [0] in the caller's document.  On the
    relational adapters the key column also cuts the blank excess of an id
    of more than 50 characters, so the row handed back carries a shorter
    id than the document, and it holds a number as text. *)
Lemma save_preset_id_counterexample :
  Sample.order_0 !! "id" = Some (VNum 0) /\
  calls (final (RedisPersistency.save Sample.online 1%positive Sample.quiet)
           {[1%positive := Sample.order_0]} ∅) = [Invoke None (RRef 1%positive)] /\
  heap (final (RedisPersistency.save Sample.online 1%positive Sample.quiet)
          {[1%positive := Sample.order_0]} ∅) !! 1%positive
  = Some (<["id" := VStr (uuid_text Sample.id_1)]> Sample.order_0) /\
  <["id" := VStr (uuid_text Sample.id_1)]> Sample.order_0 !! "id" <> Some (VNum 0) /\
  Sample.order_4 !! "id" = Some (VStr Sample.padded_id) /\
  (exists r,
     calls (final (PostgresPersistency.save Sample.encode Sample.online 1%positive Sample.quiet)
              {[1%positive := Sample.order_4]} ∅) = [Invoke None (RRow r)] /\
     row_id r <> Sample.padded_id) /\
  Sample.order_5 !! "id" = Some (VNum 17) /\
  (exists r,
     calls (final (SupabasePersistency.save Sample.encode Sample.online 1%positive Sample.quiet)
              {[1%positive := Sample.order_5]} ∅) = [Invoke None (RRow r)] /\
     VStr (row_id r) <> VNum 17).
Proof.
  split; [reflexivity|]. split; [vm_compute; reflexivity|]. split; [vm_compute; reflexivity|].
  split; [intros H; vm_compute in H; discriminate H|]. split; [reflexivity|].
  split.
  { eexists. split; [vm_compute; reflexivity|].
    simpl. intros H. apply (f_equal String.length) in H. vm_compute in H. discriminate H. }
  split; [reflexivity|].
  eexists. split; [vm_compute; reflexivity | discriminate].
Qed.

(** C4, amended.  When the request goes through: [save] of a document
    whose id is missing or falsy hands back a record carrying the
    identifier drawn from [uuidv4()], which is not empty, and stores the
    document under it; [save] of a document with a truthy id of its own
    stores it under that id and hands back a record with that id, the
    document unchanged.  On the relational adapters the latter is for an id
    that is a string of at most 50 characters, and the id is not in the
    table yet. *)
Theorem save_assigns_or_keeps_id
  (encode_other : value -> string) (ε : env) (doc : loc) (o : gmap string value)
  (cb : callback) (h : gmap loc (gmap string value)) :
  h !! doc = Some o -> fault ε 0 = None ->
  (truthy (default VUndef (o !! "id")) = false ->
   let u := uuid_text (uuidv4 ε) in
   let D := <["id" := VStr u]> o in
   u <> "" /\
   (forall b,
      let st := final (RedisPersistency.save ε doc cb) h b in
      reports st (Invoke None (RRef doc)) /\
      heap st !! doc = Some D /\
      store st !! ("process_instance:" +:+ u)
      = Some (RedisPersistency.JsonText (JSON_stringify_object D))) /\
   (forall t, t !! u = None ->
      let st := final (PostgresPersistency.save encode_other ε doc cb) h t in
      exists r, reports st (Invoke None (RRow r)) /\ row_id r = u /\
                heap st !! doc = Some D /\
                Relational.col_doc <$> store st !! u = Some (JSON_stringify_object D)) /\
   (forall t, t !! u = None ->
      let st := final (SupabasePersistency.save encode_other ε doc cb) h t in
      exists r, reports st (Invoke None (RRow r)) /\ row_id r = u /\
                heap st !! doc = Some D /\
                Relational.col_doc <$> store st !! u = Some (JSON_stringify_object D))) /\
  (truthy (default VUndef (o !! "id")) = true ->
   (forall b,
      let st := final (RedisPersistency.save ε doc cb) h b in
      reports st (Invoke None (RRef doc)) /\
      heap st !! doc = Some o /\
      store st !! ("process_instance:" +:+ ToString (default VUndef (o !! "id")))
      = Some (RedisPersistency.JsonText (JSON_stringify_object o))) /\
   (forall t s, o !! "id" = Some (VStr s) -> (Relational.char_length s <= 50)%nat -> t !! s = None ->
      let st := final (PostgresPersistency.save encode_other ε doc cb) h t in
      exists r, reports st (Invoke None (RRow r)) /\ row_id r = s /\
                heap st !! doc = Some o /\
                Relational.col_doc <$> store st !! s = Some (JSON_stringify_object o)) /\
   (forall t s, o !! "id" = Some (VStr s) -> (Relational.char_length s <= 50)%nat -> t !! s = None ->
      let st := final (SupabasePersistency.save encode_other ε doc cb) h t in
      exists r, reports st (Invoke None (RRow r)) /\ row_id r = s /\
                heap st !! doc = Some o /\
                Relational.col_doc <$> store st !! s = Some (JSON_stringify_object o))).
Proof.
  intros Hh Hε. split.
  - intros Hid u D.
    assert (Hu : id_or_uuid ε (default VUndef (o !! "id")) = VStr u)
      by by apply id_or_uuid_missing.
    assert (Hlen : (Relational.char_length u <= 50)%nat).
    { pose proof (char_length_le u) as Hle. unfold u in *.
      rewrite (uuid_length (uuidv4 ε)) in Hle. lia. }
    split; [apply uuid_text_nonempty|]. repeat apply conj.
    + intros b st. subst st.
      rewrite (redis_save_ok ε cb h b doc o Hh Hε). rewrite Hu. simpl.
      split; [done|]. split; apply lookup_insert_eq.
    + intros t Ht st. subst st.
      rewrite (postgres_save_chars encode_other ε cb h t doc o u Hh Hε Hu Hlen Ht). simpl.
      eexists. split; [reflexivity|]. split; [reflexivity|].
      split; [apply lookup_insert_eq|]. by rewrite lookup_insert_eq.
    + intros t Ht st. subst st.
      rewrite (supabase_save_chars encode_other ε cb h t doc o u Hh Hε Hu Hlen Ht). simpl.
      eexists. split; [reflexivity|]. split; [reflexivity|].
      split; [apply lookup_insert_eq|]. by rewrite lookup_insert_eq.
  - intros Hid.
    assert (Hd : id_or_uuid ε (default VUndef (o !! "id")) = default VUndef (o !! "id"))
      by by apply id_or_uuid_present.
    assert (Ho : <["id" := default VUndef (o !! "id")]> o = o).
    { pose proof (saved_document ε o) as H. rewrite Hd, Hid in H. exact H. }
    repeat apply conj.
    + intros b st. subst st.
      rewrite (redis_save_ok ε cb h b doc o Hh Hε). rewrite Hd, Ho. simpl.
      split; [done|]. split; apply lookup_insert_eq.
    + intros t s Hs Hlen Ht st. subst st.
      assert (Hd' : id_or_uuid ε (default VUndef (o !! "id")) = VStr s)
        by (rewrite Hd, Hs; done).
      assert (Ho' : <["id" := VStr s]> o = o) by (rewrite Hs in Ho; exact Ho).
      rewrite (postgres_save_chars encode_other ε cb h t doc o s Hh Hε Hd' Hlen Ht).
      rewrite Ho'. simpl.
      eexists. split; [reflexivity|]. split; [reflexivity|].
      split; [apply lookup_insert_eq|]. by rewrite lookup_insert_eq.
    + intros t s Hs Hlen Ht st. subst st.
      assert (Hd' : id_or_uuid ε (default VUndef (o !! "id")) = VStr s)
        by (rewrite Hd, Hs; done).
      assert (Ho' : <["id" := VStr s]> o = o) by (rewrite Hs in Ho; exact Ho).
      rewrite (supabase_save_chars encode_other ε cb h t doc o s Hh Hε Hd' Hlen Ht).
      rewrite Ho'. simpl.
      eexists. split; [reflexivity|]. split; [reflexivity|].
      split; [apply lookup_insert_eq|]. by rewrite lookup_insert_eq.
Qed.

Lemma save_assigns_or_keeps_id_witness :
  ({[1%positive := Sample.order_1]} : gmap loc (gmap string value)) !! 1%positive
    = Some Sample.order_1 /\
  fault Sample.online 0 = None /\
  truthy (default VUndef (Sample.order_1 !! "id")) = false /\
  (let st := final (RedisPersistency.save Sample.online 1%positive Sample.quiet)
               {[1%positive := Sample.order_1]} ∅ in
   reports st (Invoke None (RRef 1%positive)) /\
   heap st !! 1%positive = Some (<["id" := VStr (uuid_text Sample.id_1)]> Sample.order_1) /\
   store st !! ("process_instance:" +:+ uuid_text Sample.id_1)
   = Some (RedisPersistency.JsonText
             (JSON_stringify_object (<["id" := VStr (uuid_text Sample.id_1)]> Sample.order_1)))).
Proof.
  split; [reflexivity|]. split; [reflexivity|]. split; [reflexivity|].
  pose proof (save_assigns_or_keeps_id Sample.encode Sample.online 1%positive Sample.order_1
                Sample.quiet {[1%positive := Sample.order_1]} eq_refl eq_refl) as (HL & _).
  destruct (HL eq_refl) as (_ & HR & _).
  apply (HR ∅).
Defined.

(** ** The caller's document after [save] *)

(** C10.  [save] of a document that lacks an id writes the generated
    identifier into the caller's own object on each adapter, whatever the
    store answers afterwards; and what a request that goes through persists
    is the document with that identifier in it. *)
Theorem save_mutates_caller_document
  (encode_other : value -> string) (ε : env) (doc : loc) (o : gmap string value)
  (cb : callback) (h : gmap loc (gmap string value)) :
  h !! doc = Some o ->
  truthy (default VUndef (o !! "id")) = false ->
  let u := uuid_text (uuidv4 ε) in
  let D := <["id" := VStr u]> o in
  (forall b, heap (final (RedisPersistency.save ε doc cb) h b) !! doc = Some D) /\
  (forall t, heap (final (PostgresPersistency.save encode_other ε doc cb) h t) !! doc = Some D) /\
  (forall t, heap (final (SupabasePersistency.save encode_other ε doc cb) h t) !! doc = Some D) /\
  (fault ε 0 = None ->
   (forall b, store (final (RedisPersistency.save ε doc cb) h b) !! ("process_instance:" +:+ u)
              = Some (RedisPersistency.JsonText (JSON_stringify_object D))) /\
   (forall t, t !! u = None ->
      Relational.col_doc <$> store (final (PostgresPersistency.save encode_other ε doc cb) h t) !! u
      = Some (JSON_stringify_object D)) /\
   (forall t, t !! u = None ->
      Relational.col_doc <$> store (final (SupabasePersistency.save encode_other ε doc cb) h t) !! u
      = Some (JSON_stringify_object D))).
Proof.
  intros Hh Hid u D.
  assert (Hu : id_or_uuid ε (default VUndef (o !! "id")) = VStr u)
    by by apply id_or_uuid_missing.
  repeat apply conj.
  - intros b. rewrite (redis_save_heap ε cb h b doc o Hh). by rewrite Hu.
  - intros t. rewrite (postgres_save_heap encode_other ε cb h doc o t Hh). by rewrite Hu.
  - intros t. rewrite (supabase_save_heap encode_other ε cb h doc o t Hh). by rewrite Hu.
  - intros Hε.
    assert (Hlen : (String.length u <= 50)%nat)
      by (unfold u; rewrite (uuid_length (uuidv4 ε)); lia).
    repeat apply conj.
    + intros b. rewrite (redis_save_ok ε cb h b doc o Hh Hε). rewrite Hu. simpl.
      apply lookup_insert_eq.
    + intros t Ht.
      rewrite (postgres_save_ok encode_other ε cb h t doc o u Hh Hε Hu Hlen Ht). simpl.
      by rewrite lookup_insert_eq.
    + intros t Ht.
      rewrite (supabase_save_ok encode_other ε cb h t doc o u Hh Hε Hu Hlen Ht). simpl.
      by rewrite lookup_insert_eq.
Qed.

Lemma save_mutates_caller_document_witness :
  ({[1%positive := Sample.order_1]} : gmap loc (gmap string value)) !! 1%positive
    = Some Sample.order_1 /\
  truthy (default VUndef (Sample.order_1 !! "id")) = false /\
  heap (final (RedisPersistency.save Sample.offline 1%positive Sample.throwing)
          {[1%positive := Sample.order_1]} ∅) !! 1%positive
  = Some (<["id" := VStr (uuid_text Sample.id_1)]> Sample.order_1) /\
  heap (final (PostgresPersistency.save Sample.encode Sample.offline 1%positive Sample.throwing)
          {[1%positive := Sample.order_1]} ∅) !! 1%positive
  = Some (<["id" := VStr (uuid_text Sample.id_1)]> Sample.order_1).
Proof.
  split; [reflexivity|]. split; [reflexivity|].
  pose proof (save_mutates_caller_document Sample.encode Sample.offline 1%positive
                Sample.order_1 Sample.throwing {[1%positive := Sample.order_1]}
                eq_refl eq_refl) as (HR & HP & _).
  split; [apply (HR ∅) | apply (HP ∅)].
Defined.

(** ** What the Redis adapter stores *)

(** C9, as stated, fails: the record that [save] stores for
    [{ name: "order-1" }] has no timestamps, and an [update] at a later time
    leaves the stored record exactly as it was. *)
Lemma redis_record_timestamps_counterexample :
  exists t,
    store (final (RedisPersistency.save Sample.online 1%positive Sample.quiet)
             {[1%positive := Sample.order_1]} ∅)
      !! ("process_instance:" +:+ uuid_text Sample.id_1) = Some t /\
    RedisPersistency.record_timestamps t = None /\
    store (final (RedisPersistency.update Sample.later 1%positive Sample.quiet)
             (heap (final (RedisPersistency.save Sample.online 1%positive Sample.quiet)
                      {[1%positive := Sample.order_1]} ∅))
             (store (final (RedisPersistency.save Sample.online 1%positive Sample.quiet)
                       {[1%positive := Sample.order_1]} ∅)))
    = store (final (RedisPersistency.save Sample.online 1%positive Sample.quiet)
               {[1%positive := Sample.order_1]} ∅).
Proof.
  eexists. split; [vm_compute; reflexivity|]. split; vm_compute; reflexivity.
Qed.

(** C9, amended.  In the Redis backend the record stored by a [save] or an
    [update] that goes through is the serialised document itself, under the
    key made of the prefix and its identifier: its fields are those of the
    document, no timestamp is added, and the time of the call has no
    influence on what the operation does. *)
Theorem redis_record_is_document
  (ε : env) (doc : loc) (o : gmap string value) (cb : callback)
  (h : gmap loc (gmap string value)) (b : gmap string RedisPersistency.text) :
  h !! doc = Some o -> fault ε 0 = None ->
  let d := default VUndef (o !! "id") in
  store (final (RedisPersistency.save ε doc cb) h b)
  = <["process_instance:" +:+ ToString (id_or_uuid ε d)
      := RedisPersistency.JsonText (JSON_stringify_object (<["id" := id_or_uuid ε d]> o))]> b /\
  (truthy d = true ->
   store (final (RedisPersistency.update ε doc cb) h b)
   = <["process_instance:" +:+ ToString d
       := RedisPersistency.JsonText (JSON_stringify_object o)]> b) /\
  (forall (D : gmap string value) fields k,
     JSON_stringify_object D = JObj fields -> fields !! k = D !! k ≫= JSON_stringify) /\
  (forall t,
     final (RedisPersistency.save (Env (uuidv4 ε) (fault ε) t) doc cb) h b
     = final (RedisPersistency.save ε doc cb) h b /\
     final (RedisPersistency.update (Env (uuidv4 ε) (fault ε) t) doc cb) h b
     = final (RedisPersistency.update ε doc cb) h b).
Proof.
  intros Hh Hε d. repeat apply conj.
  - by rewrite (redis_save_ok ε cb h b doc o Hh Hε).
  - intros Hd. by rewrite (redis_update_ok ε cb h b doc o Hh Hd Hε).
  - intros D fields k [= <-]. apply lookup_omap.
  - intros t. split; reflexivity.
Qed.

Lemma redis_record_is_document_witness :
  ({[1%positive := Sample.order_2]} : gmap loc (gmap string value)) !! 1%positive
    = Some Sample.order_2 /\
  fault Sample.online 0 = None /\
  store (final (RedisPersistency.save Sample.online 1%positive Sample.quiet)
           {[1%positive := Sample.order_2]} ∅)
  = {["process_instance:a-17"
      := RedisPersistency.JsonText (JSON_stringify_object Sample.order_2)]}.
Proof.
  split; [reflexivity|]. split; [reflexivity|].
  pose proof (redis_record_is_document Sample.online 1%positive Sample.order_2 Sample.quiet
                {[1%positive := Sample.order_2]} ∅ eq_refl eq_refl) as (HS & _).
  rewrite HS. vm_compute. reflexivity.
Defined.

(** ** The completion signal *)

(** C8, as stated, fails: [update] of a document whose id is not in the
    table calls the callback with neither an error nor a record. *)
Lemma completion_signal_counterexample :
  calls (final (PostgresPersistency.update Sample.encode Sample.online 1%positive Sample.quiet)
           {[1%positive := Sample.order_2]} ∅) = [Invoke None RUndef] /\
  ~ signals_once error_xor_result
      (calls (final (PostgresPersistency.update Sample.encode Sample.online 1%positive
                       Sample.quiet) {[1%positive := Sample.order_2]} ∅)).
Proof.
  split; [vm_compute; reflexivity|].
  intros (i & Hi & Hx). vm_compute in Hi. injection Hi as <-.
  destruct Hx as [_ Hx]. destruct (Hx eq_refl) as [e He]. discriminate He.
Qed.

(** A callback that throws on the success signal is called a second time,
    by the [catch] block, with what it threw. *)
Lemma throwing_callback_called_twice :
  calls (final (RedisPersistency.save Sample.online 1%positive Sample.throwing)
           {[1%positive := Sample.order_1]} ∅)
  = [Invoke None (RRef 1%positive); Invoke (Some (Error "handler failed")) RUndef].
Proof. vm_compute. reflexivity. Qed.

Lemma mapM_JSON_parse_text_state docs (s : state (gmap string RedisPersistency.text)) :
  snd (mapM (M := M (gmap string RedisPersistency.text))
         RedisPersistency.JSON_parse_text docs s) = s.
Proof.
  revert s. induction docs as [|d docs IH]; intros s; [done|].
  simpl. unfold mbind, M_bind, bind, mret, M_ret, ret.
  destruct d as [[j|x]|]; simpl.
  - specialize (IH s). destruct (@mapM (M _) _ _ _ _ _ docs s) as [[e|r] s']; simpl in *; congruence.
  - reflexivity.
  - specialize (IH s). destruct (@mapM (M _) _ _ _ _ _ docs s) as [[e|r] s']; simpl in *; congruence.
Qed.

(** Case analysis on the innermost test the goal is stuck on. *)
Ltac case_innermost :=
  match goal with
  | |- context [match ?x with _ => _ end] =>
      lazymatch x with
      | context [match _ with _ => _ end] => fail
      | _ => destruct x eqn:?
      end
  end.

Lemma signals_xor_error e : signals_once error_xor_result [Invoke (Some e) RUndef].
Proof. eexists. split; [reflexivity|]. split; [done | by eexists]. Qed.

Lemma signals_xor_result r : r <> RUndef -> signals_once error_xor_result [Invoke None r].
Proof.
  intros Hr. eexists. split; [reflexivity|]. split; [intros [e He]; discriminate He | done].
Qed.

(** A signal with an error or a result is not one with both. *)
Lemma error_xor_result_not_both i : error_xor_result i -> not_both i.
Proof. intros [H _]. exact H. Qed.

Ltac close_signal :=
  first [ apply signals_xor_error
        | apply signals_xor_result; discriminate
        | left; apply signals_xor_error
        | left; apply signals_xor_result; discriminate
        | right; repeat split; try done;
          try (eexists; split; [reflexivity|]);
          intros; simplify_eq; done ].

Ltac case_signal Hcb :=
  repeat (rewrite ?Hcb; simpl; case_innermost; simpl);
  rewrite ?Hcb; simpl; close_signal.

(** C8, amended.  For every operation of the three adapters and every
    input, when the callback itself returns, it is called exactly once, with
    either an error or a result and never both.  It is called with neither
    only in these cases: by a [remove] that went through, and, on the
    Postgres and Supabase adapters, by a [get] or an [update] that went
    through and whose identifier matches no stored row. *)
Theorem callback_signalled_once
  (encode_other : value -> string) (ε : env) (cb : callback)
  (h : gmap loc (gmap string value)) :
  (forall i, cb i = None) ->
  (forall b,
     (forall doc, signals_once error_xor_result
                    (calls (final (RedisPersistency.save ε doc cb) h b))) /\
     (forall id, signals_once error_xor_result
                   (calls (final (RedisPersistency.get ε id cb) h b))) /\
     (forall doc, signals_once error_xor_result
                    (calls (final (RedisPersistency.update ε doc cb) h b))) /\
     (forall id, signals_once error_xor_result
                   (calls (final (RedisPersistency.remove ε id cb) h b)) \/
                 (fault ε 0 = None /\
                  calls (final (RedisPersistency.remove ε id cb) h b) = [Invoke None RUndef])) /\
     signals_once error_xor_result (calls (final (RedisPersistency.list ε cb) h b))) /\
  (forall t,
     (forall doc, signals_once error_xor_result
                    (calls (final (PostgresPersistency.save encode_other ε doc cb) h t))) /\
     (forall id, signals_once error_xor_result
                   (calls (final (PostgresPersistency.get encode_other ε id cb) h t)) \/
                 (fault ε 0 = None /\
                  (forall k, Relational.id_text encode_other id = Some k -> t !! k = None) /\
                  calls (final (PostgresPersistency.get encode_other ε id cb) h t)
                  = [Invoke None RUndef])) /\
     (forall doc, signals_once error_xor_result
                    (calls (final (PostgresPersistency.update encode_other ε doc cb) h t)) \/
                  (fault ε 0 = None /\
                   (exists o, h !! doc = Some o /\
                      forall k, Relational.id_text encode_other (default VUndef (o !! "id"))
                                = Some k -> t !! k = None) /\
                   calls (final (PostgresPersistency.update encode_other ε doc cb) h t)
                   = [Invoke None RUndef])) /\
     (forall id, signals_once error_xor_result
                   (calls (final (PostgresPersistency.remove encode_other ε id cb) h t)) \/
                 (fault ε 0 = None /\
                  calls (final (PostgresPersistency.remove encode_other ε id cb) h t)
                  = [Invoke None RUndef])) /\
     signals_once error_xor_result (calls (final (PostgresPersistency.list ε cb) h t))) /\
  (forall t,
     (forall doc, signals_once error_xor_result
                    (calls (final (SupabasePersistency.save encode_other ε doc cb) h t))) /\
     (forall id, signals_once error_xor_result
                   (calls (final (SupabasePersistency.get ε id cb) h t)) \/
                 (fault ε 0 = None /\ t !! ToString id = None /\
                  calls (final (SupabasePersistency.get ε id cb) h t) = [Invoke None RUndef])) /\
     (forall doc, signals_once error_xor_result
                    (calls (final (SupabasePersistency.update ε doc cb) h t)) \/
                  (fault ε 0 = None /\
                   (exists o, h !! doc = Some o /\
                      t !! ToString (default VUndef (o !! "id")) = None) /\
                   calls (final (SupabasePersistency.update ε doc cb) h t)
                   = [Invoke None RUndef])) /\
     (forall id, signals_once error_xor_result
                   (calls (final (SupabasePersistency.remove ε id cb) h t)) \/
                 (fault ε 0 = None /\
                  calls (final (SupabasePersistency.remove ε id cb) h t) = [Invoke None RUndef])) /\
     signals_once error_xor_result (calls (final (SupabasePersistency.list ε cb) h t))).
Proof.
  intros Hcb. repeat apply conj; intros b; repeat apply conj; try intros x.
  all: try (unfold_adapters; unfold Relational.insert_row, Relational.update_row,
              Relational.select_by_id, Relational.first_row, Relational.id_text,
              RedisPersistency.is_falsy, RedisPersistency.JSON_parse_text;
            unfold_monad; simpl; case_signal Hcb; fail).
  all: try (unfold_adapters; unfold Relational.insert_row, Relational.update_row,
              Relational.select_by_id, Relational.first_row;
            unfold_monad; simpl; case_signal Hcb; fail).
  unfold_adapters. simpl.
  destruct (fault ε 0) as [e|]; simpl; [apply signals_xor_error|].
  destruct (length _ =? 0)%nat; simpl;
    [rewrite ?Hcb; apply signals_xor_result; discriminate|].
  destruct (fault ε 1) as [e|]; simpl; [apply signals_xor_error|].
  match goal with
  | |- context [@mapM ?M ?H1 ?H2 ?A ?B ?f ?l ?s] =>
      assert (Hs : snd (@mapM M H1 H2 A B f l s) = s)
        by exact (mapM_JSON_parse_text_state l s);
      destruct (@mapM M H1 H2 A B f l s) as [[e|r] s'];
      simpl in Hs; subst s'
  end; simpl; rewrite ?Hcb; simpl;
    [apply signals_xor_error | apply signals_xor_result; discriminate].
Qed.

Lemma callback_signalled_once_witness :
  (forall i, Sample.quiet i = None) /\
  signals_once error_xor_result
    (calls (final (RedisPersistency.save Sample.offline 1%positive Sample.quiet)
              {[1%positive := Sample.order_1]} ∅)) /\
  signals_once error_xor_result
    (calls (final (PostgresPersistency.save Sample.encode Sample.online 1%positive Sample.quiet)
              {[1%positive := Sample.order_1]} ∅)) /\
  (signals_once error_xor_result
     (calls (final (SupabasePersistency.remove Sample.online (VStr "a-17") Sample.quiet) ∅ ∅)) \/
   (fault Sample.online 0 = None /\
    calls (final (SupabasePersistency.remove Sample.online (VStr "a-17") Sample.quiet) ∅ ∅)
    = [Invoke None RUndef])).
Proof.
  assert (Hq : forall i, Sample.quiet i = None) by reflexivity.
  split; [exact Hq|].
  pose proof (callback_signalled_once Sample.encode Sample.offline Sample.quiet
                {[1%positive := Sample.order_1]} Hq) as (HR & _).
  pose proof (callback_signalled_once Sample.encode Sample.online Sample.quiet
                {[1%positive := Sample.order_1]} Hq) as (_ & HP & _).
  pose proof (callback_signalled_once Sample.encode Sample.online Sample.quiet ∅ Hq)
    as (_ & _ & HS).
  split; [apply (HR ∅)|]. split; [apply (HP ∅) | apply (HS ∅)].
Defined.

(** ** The facade *)

Section FacadeProperties.

Context {W : Type}.
Variables file_js mongodb_js : Facade.module_exports (@Facade.constructor W).

(** Without options, or without a uri in them, construction throws the
    configuration error. *)
Lemma Persistency_requires_uri (options : value) :
  truthy options = false \/ truthy (Facade.property options "uri") = false ->
  exists e, ConfigurationError e /\
            Facade.Persistency file_js mongodb_js options = inl e.
Proof.
  intros H. eexists. split; [reflexivity|].
  unfold Facade.Persistency. destruct H as [-> | ->]; simpl; [done|].
  by rewrite orb_true_r.
Qed.

(** A string without one of the four schemes is handed, as a path, to the
    constructor that [./file.js] exports. *)
Lemma Persistency_file_fallback (o : gmap string value) (s : string) :
  o !! "uri" = Some (VStr s) -> s <> "" ->
  String.prefix "mongodb://" s = false -> String.prefix "postgres://" s = false ->
  String.prefix "supabase://" s = false -> String.prefix "redis://" s = false ->
  Facade.Persistency file_js mongodb_js (VObj o)
  = match Facade.new (Facade.FilePersistency file_js) "FilePersistency" [VStr s] with
    | inl e => inl e
    | inr impl => inr (Facade.Bind impl)
    end.
Proof.
  intros Ho Hs%truthy_string Hm Hp Hsu Hr.
  unfold Facade.Persistency, Facade.select_implementation, Facade.property. rewrite Ho.
  simpl. rewrite Hs. simpl. by rewrite Hm, Hp, Hsu, Hr.
Qed.

(** C7.  Construction with a [postgres://], [supabase://] or [redis://]
    uri throws a [TypeError]: the facade takes the property [Persistency] of
    what the three modules export, the modules export their class itself,
    and so the facade applies [new] to [undefined]. *)
Theorem Persistency_scheme_of_class_export_throws :
  Facade.Persistency file_js mongodb_js
    (VObj {["uri" := VStr "postgres://localhost:5432/bpmn"]})
  = inl (TypeError "PostgresPersistency is not a constructor") /\
  Facade.Persistency file_js mongodb_js
    (VObj {["uri" := VStr "supabase://project.supabase.co"]})
  = inl (TypeError "SupabasePersistency is not a constructor") /\
  Facade.Persistency file_js mongodb_js
    (VObj {["uri" := VStr "redis://localhost:6379"]})
  = inl (TypeError "RedisPersistency is not a constructor").
Proof. repeat split; reflexivity. Qed.

(** C1.  A facade that construction has returned holds the adapter object
    that the constructor selected by the uri has returned, and each of
    [persist], [load], [loadAll] and [close] is the adapter's method of that
    name applied to the same arguments and the same callback. *)
Theorem facade_forwards (options : value) (f : @Facade.facade W) :
  Facade.Persistency file_js mongodb_js options = inr f ->
  Facade.select_implementation file_js mongodb_js (Facade.property options "uri") options
  = inr (Facade.implementation f) /\
  (forall m data done, Facade.implementation f !! "persist" = Some m ->
     Facade.persist f data done = m [data] done) /\
  (forall m processId processName done, Facade.implementation f !! "load" = Some m ->
     Facade.load f processId processName done = m [processId; processName] done) /\
  (forall m processName done, Facade.implementation f !! "loadAll" = Some m ->
     Facade.loadAll f processName done = m [processName] done) /\
  (forall m done, Facade.implementation f !! "close" = Some m ->
     Facade.close f done = m [] done).
Proof.
  intros Hf. split.
  - unfold Facade.Persistency in Hf.
    destruct (negb (truthy options) || _); [discriminate Hf|].
    destruct (Facade.select_implementation _ _ _ _) as [e|impl]; [discriminate Hf|].
    by injection Hf as <-.
  - unfold Facade.persist, Facade.load, Facade.loadAll, Facade.close, Facade.call_method.
    repeat split; intros; by match goal with H : _ !! _ = Some _ |- _ => rewrite H end.
Qed.

(** An adapter without the operation makes the forwarder throw; the three
    adapter classes above define [save], [get], [update], [remove] and
    [list] only. *)
Lemma facade_missing_method (f : @Facade.facade W) (name : string) args done :
  Facade.implementation f !! name = None ->
  Facade.call_method (Facade.implementation f) name args done
  = throw (TypeError ("this.implementation." +:+ name +:+ " is not a function")).
Proof. intros H. unfold Facade.call_method, Facade.method in *. by rewrite H. Qed.

End FacadeProperties.

Lemma facade_forwards_witness :
  Facade.Persistency Sample.file_js Sample.mongodb_js
    (VObj {["uri" := VStr "data/instances.db"]}) = inr (Facade.Bind Sample.echo) /\
  (forall data done,
     Facade.persist (Facade.Bind Sample.echo) data done
     = invoke done None (RVal (VArr [data]))) /\
  (forall done, Facade.close (Facade.Bind Sample.echo) done = invoke done None RUndef).
Proof.
  split; [reflexivity|].
  pose proof (facade_forwards Sample.file_js Sample.mongodb_js
                (VObj {["uri" := VStr "data/instances.db"]}) (Facade.Bind Sample.echo)
                eq_refl) as (_ & HP & _ & _ & HC).
  split.
  - intros data done. apply (HP (fun args done => invoke done None (RVal (VArr args)))).
    reflexivity.
  - intros done. apply (HC (fun _ done => invoke done None RUndef)). reflexivity.
Defined.

(** ** Scenarios *)

(** An unrecognised scheme is not an error: the whole string goes to the
    file adapter as a path. *)
Example unrecognised_scheme_is_a_path :
  Facade.Persistency Sample.file_js Sample.mongodb_js (VObj {["uri" := VStr "ftp://x"]})
  = inr (Facade.Bind Sample.echo).
Proof. reflexivity. Qed.

(** On the Redis adapter: save [{ name: "order-1" }], read it back under
    the generated id, remove it, and read again. *)
Example redis_save_get_remove_get :
  let D := <["id" := VStr (uuid_text Sample.id_1)]> Sample.order_1 in
  let saved := final (RedisPersistency.save Sample.online 1%positive Sample.quiet)
                 {[1%positive := Sample.order_1]} ∅ in
  let read := final (RedisPersistency.get Sample.online (VStr (uuid_text Sample.id_1))
                       Sample.quiet) (heap saved) (store saved) in
  let removed := final (RedisPersistency.remove Sample.online (VStr (uuid_text Sample.id_1))
                          Sample.quiet) (heap read) (store read) in
  let again := final (RedisPersistency.get Sample.online (VStr (uuid_text Sample.id_1))
                        Sample.quiet) (heap removed) (store removed) in
  calls saved = [Invoke None (RRef 1%positive)] /\
  heap saved !! 1%positive = Some D /\
  calls read = [Invoke None (RVal (VObj D))] /\
  calls removed = [Invoke None RUndef] /\
  calls again = [Invoke None RNull].
Proof. repeat split; vm_compute; reflexivity. Qed.

(** * Further properties of the adapters and the facade *)

(** ** What is read back from a stored text *)

Lemma json_size_elem (l : list json) x :
  x ∈ l -> (json_size x < json_size (JArr l))%nat.
Proof.
  simpl. induction l as [|y l IH]; intros Hx.
  - by apply elem_of_nil in Hx.
  - apply elem_of_cons in Hx as [->|Hx]; simpl; [lia|]. specialize (IH Hx). lia.
Qed.

Lemma json_size_lookup (o : gmap string json) k x :
  o !! k = Some x -> (json_size x < json_size (JObj o))%nat.
Proof.
  intros Hl. simpl. pose proof (map_fold_plus_lookup json_size o k x Hl). lia.
Qed.

Lemma json_induction (P : json -> Prop) :
  P JNull -> (forall b, P (JBool b)) -> (forall n, P (JNum n)) -> (forall s, P (JStr s)) ->
  (forall l, Forall P l -> P (JArr l)) ->
  (forall o, map_Forall (fun _ x => P x) o -> P (JObj o)) ->
  forall j, P j.
Proof.
  intros HN HB HZ HS HA HO j.
  remember (json_size j) as n eqn:Hn.
  revert j Hn. induction n as [n IH] using lt_wf_ind. intros j ->.
  destruct j; auto.
  - apply HA, Forall_forall. intros x Hx.
    apply (IH (json_size x)); [by apply json_size_elem | done].
  - apply HO. intros k x Hk.
    apply (IH (json_size x)); [by eapply json_size_lookup | done].
Qed.

(** A parsed text has no [undefined] in it. *)
Lemma JSON_parse_representable (j : json) : json_representable (JSON_parse j) = true.
Proof.
  induction j as [| | | |l IH|o IH] using json_induction; try done.
  - simpl. induction l as [|x l IHl]; [done|].
    apply Forall_cons in IH as [Hx IH]. simpl. by rewrite Hx, (IHl IH).
  - change (json_representable (VObj (JSON_parse <$> o)) = true).
    apply json_representable_obj. intros k v. rewrite lookup_fmap.
    destruct (o !! k) as [x|] eqn:Hk; [|done]. simpl. intros [= <-]. by apply (IH k x).
Qed.

(** ** The Redis adapter: reading, removing, listing *)

Section RedisMore.

Import RedisPersistency.

Variables (ε : env) (cb : callback) (h : gmap loc (gmap string value)) (b : gmap string text).

(** When the key holds a JSON text, [get] hands back its parse and changes
    nothing, and what it hands back has no [undefined] anywhere in it. *)
Theorem redis_get_found_is_json id j :
  fault ε 0 = None -> b !! ("process_instance:" +:+ ToString id) = Some (JsonText j) ->
  exists v,
    final (get ε id cb) h b = State h b (completion cb (Invoke None (RVal v))) /\
    v = JSON_parse j /\
    json_representable v = true.
Proof.
  intros Hε Hb. exists (JSON_parse j).
  split; [by apply redis_get_found|].
  split; [reflexivity | apply JSON_parse_representable].
Qed.

(** A stored text that is no JSON document makes [get] report the
    [SyntaxError] of [JSON.parse], once; a stored empty text counts as not
    found.  Neither changes anything. *)
Theorem redis_get_unparsable id s :
  fault ε 0 = None -> b !! ("process_instance:" +:+ ToString id) = Some (OtherText s) ->
  final (get ε id cb) h b
  = State h b (if String.eqb s ""
               then completion cb (Invoke None RNull)
               else [Invoke (Some (SyntaxError "Unexpected token in JSON")) RUndef]).
Proof.
  intros Hε Hb. unfold_adapters. unfold is_falsy, JSON_parse_text, completion. simpl.
  rewrite Hε. simpl. rewrite Hb. simpl.
  destruct (String.eqb s ""); simpl; unfold throw; simpl; case_callback; reflexivity.
Qed.

(** [remove] of an identifier that is not stored succeeds and leaves the
    store as it is, and a second [remove] changes nothing more. *)
Theorem redis_remove_idempotent id :
  fault ε 0 = None ->
  (b !! ("process_instance:" +:+ ToString id) = None ->
   final (remove ε id cb) h b = State h b (completion cb (Invoke None RUndef))) /\
  (forall ε' cb', fault ε' 0 = None ->
     let once := final (remove ε id cb) h b in
     let twice := final (remove ε' id cb') (heap once) (store once) in
     store twice = store once /\ heap twice = h /\
     reports twice (Invoke None RUndef) /\
     store once !! ("process_instance:" +:+ ToString id) = None).
Proof.
  intros Hε. split.
  - intros Hb. rewrite redis_remove_ok by done. by rewrite delete_id.
  - intros ε' cb' Hε' once twice. subst once twice.
    rewrite (redis_remove_ok ε cb h b id Hε). simpl.
    rewrite redis_remove_ok by done. simpl.
    split; [apply delete_delete_eq|]. split; [done|]. split; [done|].
    apply lookup_delete_eq.
Qed.

End RedisMore.

Lemma redis_get_found_is_json_witness :
  fault Sample.online 0 = None /\
  ({["process_instance:a-17" := RedisPersistency.JsonText (JSON_stringify_object Sample.order_2)]}
     : gmap string RedisPersistency.text) !! ("process_instance:" +:+ ToString (VStr "a-17"))
  = Some (RedisPersistency.JsonText (JSON_stringify_object Sample.order_2)) /\
  exists v,
    final (RedisPersistency.get Sample.online (VStr "a-17") Sample.quiet) ∅
      {["process_instance:a-17" := RedisPersistency.JsonText (JSON_stringify_object Sample.order_2)]}
    = State ∅
        {["process_instance:a-17" := RedisPersistency.JsonText (JSON_stringify_object Sample.order_2)]}
        (completion Sample.quiet (Invoke None (RVal v))) /\
    v = JSON_parse (JSON_stringify_object Sample.order_2) /\
    json_representable v = true.
Proof.
  split; [reflexivity|]. split; [reflexivity|].
  apply (redis_get_found_is_json Sample.online Sample.quiet ∅ _ (VStr "a-17")); reflexivity.
Defined.

Lemma redis_get_unparsable_witness :
  fault Sample.online 0 = None /\
  ({["process_instance:a-17" := RedisPersistency.OtherText "<html>"]}
     : gmap string RedisPersistency.text) !! ("process_instance:" +:+ ToString (VStr "a-17"))
  = Some (RedisPersistency.OtherText "<html>") /\
  final (RedisPersistency.get Sample.online (VStr "a-17") Sample.quiet) ∅
    {["process_instance:a-17" := RedisPersistency.OtherText "<html>"]}
  = State ∅ {["process_instance:a-17" := RedisPersistency.OtherText "<html>"]}
      [Invoke (Some (SyntaxError "Unexpected token in JSON")) RUndef].
Proof.
  split; [reflexivity|]. split; [reflexivity|].
  apply (redis_get_unparsable Sample.online Sample.quiet ∅ _ (VStr "a-17") "<html>");
    reflexivity.
Defined.

Lemma redis_remove_idempotent_witness :
  fault Sample.online 0 = None /\
  final (RedisPersistency.remove Sample.online (VStr "a-17") Sample.quiet) ∅ ∅
  = State ∅ ∅ [Invoke None RUndef].
Proof.
  split; [reflexivity|].
  pose proof (redis_remove_idempotent Sample.online Sample.quiet ∅ ∅ (VStr "a-17") eq_refl)
    as (H & _).
  apply H. reflexivity.
Defined.

(** The keys [KEYS process_instance:*] answers: each key of the store that
    starts with the prefix, once. *)
Lemma keys_in_namespace (b : gmap string RedisPersistency.text) (k : string) :
  k ∈ filter (fun k => String.prefix "process_instance:" k = true) (fst <$> map_to_list b)
  <-> String.prefix "process_instance:" k = true /\ is_Some (b !! k).
Proof.
  rewrite list_elem_of_filter, list_elem_of_fmap. split.
  - intros [Hp ([k' x] & -> & Hx)]. split; [done|].
    apply elem_of_map_to_list in Hx. by exists x.
  - intros [Hp [x Hx]]. split; [done|]. exists (k, x). split; [done|].
    by apply elem_of_map_to_list.
Qed.

Lemma mapM_JSON_parse_text_ok (ds : list (option RedisPersistency.text))
  (s : state (gmap string RedisPersistency.text)) :
  Forall (fun d => exists j, d = Some (RedisPersistency.JsonText j)) ds ->
  exists vs,
    mapM (M := M (gmap string RedisPersistency.text)) RedisPersistency.JSON_parse_text ds s
    = (inr vs, s) /\
    Forall2 (fun d v => exists j, d = Some (RedisPersistency.JsonText j) /\ v = JSON_parse j)
      ds vs.
Proof.
  induction ds as [|d ds IH]; intros Hds.
  - exists []. split; [reflexivity | constructor].
  - apply Forall_cons in Hds as [[j ->] Hds]. destruct (IH Hds) as (vs & Hvs & HF).
    exists (JSON_parse j :: vs). split.
    + simpl. unfold mbind, M_bind, bind, mret, M_ret, ret in *. simpl. by rewrite Hvs.
    + constructor; [by exists j | done].
Qed.

Lemma mapM_JSON_parse_text_error (ds : list (option RedisPersistency.text))
  (s : state (gmap string RedisPersistency.text)) x :
  Some (RedisPersistency.OtherText x) ∈ ds ->
  mapM (M := M (gmap string RedisPersistency.text)) RedisPersistency.JSON_parse_text ds s
  = (inl (SyntaxError "Unexpected token in JSON"), s).
Proof.
  induction ds as [|d ds IH]; intros Hx; [by apply elem_of_nil in Hx|].
  simpl. unfold mbind, M_bind, bind, mret, M_ret, ret in *.
  destruct d as [[j|y]|]; simpl; try reflexivity.
  - apply elem_of_cons in Hx as [Hx|Hx]; [discriminate Hx|]. by rewrite (IH Hx).
  - apply elem_of_cons in Hx as [Hx|Hx]; [discriminate Hx|]. by rewrite (IH Hx).
Qed.

Section RedisList.

Import RedisPersistency.

Variables (ε : env) (cb : callback) (h : gmap loc (gmap string value)) (b : gmap string text).

(** With no key under the prefix, [list] answers the empty array after
    the one request [KEYS]: what a second request would do is irrelevant.
    Keys outside the prefix do not count. *)
Theorem redis_list_empty :
  fault ε 0 = None ->
  (forall k, String.prefix "process_instance:" k = true -> b !! k = None) ->
  final (list ε cb) h b = State h b (completion cb (Invoke None (RVal (VArr [])))).
Proof.
  intros Hε Hb.
  assert (Hk : filter (fun k => String.prefix "process_instance:" k = true)
                 (fst <$> map_to_list b) = []).
  { apply elem_of_nil_inv. intros k [Hp [x Hx]]%keys_in_namespace.
    rewrite (Hb k Hp) in Hx. discriminate Hx. }
  unfold_adapters. unfold completion. simpl. rewrite Hε. simpl. rewrite Hk. simpl.
  case_callback; reflexivity.
Qed.

(** When every text under the prefix is a JSON document, [list] answers
    one document per key under the prefix, each the parse of what is stored
    there, and changes nothing. *)
Theorem redis_list_all :
  fault ε 0 = None -> fault ε 1 = None ->
  (forall k t, String.prefix "process_instance:" k = true -> b !! k = Some t ->
               exists j, t = JsonText j) ->
  exists keys docs,
    final (list ε cb) h b = State h b (completion cb (Invoke None (RVal (VArr docs)))) /\
    NoDup keys /\
    (forall k, k ∈ keys <-> String.prefix "process_instance:" k = true /\ is_Some (b !! k)) /\
    Forall2 (fun k v => exists j, b !! k = Some (JsonText j) /\ v = JSON_parse j) keys docs.
Proof.
  intros Hε0 Hε1 Hb.
  set (keys := filter (fun k => String.prefix "process_instance:" k = true)
                 (fst <$> map_to_list b)).
  assert (Hds : Forall (fun d => exists j, d = Some (JsonText j))
                  ((fun k => b !! k) <$> keys)).
  { apply Forall_fmap, Forall_forall. intros k [Hp [t Ht]]%keys_in_namespace.
    destruct (Hb k t Hp Ht) as [j ->]. by exists j. }
  destruct (mapM_JSON_parse_text_ok _ (State h b []) Hds) as (docs & Hdocs & HF).
  exists keys, docs.
  split; [|split; [|split]].
  - unfold_adapters. unfold completion. simpl. rewrite Hε0. simpl. fold keys.
    destruct keys as [|k keys'] eqn:Hkeys.
    + simpl in *. apply Forall2_nil_inv_l in HF as ->. case_callback; reflexivity.
    + simpl length. simpl Nat.eqb. cbv iota. rewrite Hε1. simpl.
      unfold mbind, M_bind, bind, mret, M_ret, ret in Hdocs. simpl in Hdocs.
      rewrite Hdocs. simpl. case_callback; reflexivity.
  - apply NoDup_filter, NoDup_fst_map_to_list.
  - intros k. apply keys_in_namespace.
  - apply Forall2_fmap_l in HF. eapply Forall2_impl; [exact HF|].
    simpl. intros k v (j & Hj & ->). by exists j.
Qed.

(** One text under the prefix that is no JSON document makes the whole
    [list] fail with the [SyntaxError] of [JSON.parse]. *)
Theorem redis_list_unparsable k x :
  fault ε 0 = None -> fault ε 1 = None ->
  String.prefix "process_instance:" k = true -> b !! k = Some (OtherText x) ->
  final (list ε cb) h b
  = State h b [Invoke (Some (SyntaxError "Unexpected token in JSON")) RUndef].
Proof.
  intros Hε0 Hε1 Hp Hk.
  set (keys := filter (fun k => String.prefix "process_instance:" k = true)
                 (fst <$> map_to_list b)).
  assert (Hin : k ∈ keys) by (apply keys_in_namespace; eauto).
  assert (Hx : Some (OtherText x) ∈ (fun k => b !! k) <$> keys).
  { apply list_elem_of_fmap. exists k. by rewrite Hk. }
  pose proof (mapM_JSON_parse_text_error _ (State h b []) x Hx) as Hm.
  unfold_adapters. simpl. rewrite Hε0. simpl. fold keys.
  destruct keys as [|k' keys'] eqn:Hkeys; [by apply elem_of_nil in Hin|].
  simpl length. simpl Nat.eqb. cbv iota. rewrite Hε1. simpl.
  unfold mbind, M_bind, bind, mret, M_ret, ret in Hm. simpl in Hm.
  rewrite Hm. reflexivity.
Qed.

End RedisList.

Lemma redis_list_empty_witness :
  fault Sample.online 0 = None /\
  (forall k, String.prefix "process_instance:" k = true ->
     ({["session:1" := RedisPersistency.OtherText "x"]} : gmap string RedisPersistency.text) !! k
     = None) /\
  final (RedisPersistency.list Sample.online Sample.quiet) ∅
    {["session:1" := RedisPersistency.OtherText "x"]}
  = State ∅ {["session:1" := RedisPersistency.OtherText "x"]} [Invoke None (RVal (VArr []))].
Proof.
  assert (H : forall k, String.prefix "process_instance:" k = true ->
     ({["session:1" := RedisPersistency.OtherText "x"]} : gmap string RedisPersistency.text) !! k
     = None).
  { intros k Hp. apply lookup_singleton_None. intros <-. discriminate Hp. }
  split; [reflexivity|]. split; [exact H|].
  apply (redis_list_empty Sample.online Sample.quiet ∅ _ eq_refl H).
Defined.

Lemma redis_list_all_witness :
  fault Sample.online 0 = None /\ fault Sample.online 1 = None /\
  exists keys docs,
    final (RedisPersistency.list Sample.online Sample.quiet) ∅
      {["process_instance:a-17" := RedisPersistency.JsonText (JSON_stringify_object Sample.order_2)]}
    = State ∅
        {["process_instance:a-17" := RedisPersistency.JsonText (JSON_stringify_object Sample.order_2)]}
        (completion Sample.quiet (Invoke None (RVal (VArr docs)))) /\
    NoDup keys /\
    (forall k, k ∈ keys <->
       String.prefix "process_instance:" k = true /\
       is_Some (({["process_instance:a-17"
                   := RedisPersistency.JsonText (JSON_stringify_object Sample.order_2)]}
                   : gmap string RedisPersistency.text) !! k)) /\
    Forall2 (fun k v => exists j,
               ({["process_instance:a-17"
                  := RedisPersistency.JsonText (JSON_stringify_object Sample.order_2)]}
                  : gmap string RedisPersistency.text) !! k
               = Some (RedisPersistency.JsonText j) /\ v = JSON_parse j) keys docs.
Proof.
  split; [reflexivity|]. split; [reflexivity|].
  apply (redis_list_all Sample.online Sample.quiet ∅ _ eq_refl eq_refl).
  intros k t _ [_ <-]%lookup_singleton_Some. by eexists.
Defined.

Lemma redis_list_unparsable_witness :
  fault Sample.online 0 = None /\ fault Sample.online 1 = None /\
  String.prefix "process_instance:" "process_instance:a-17" = true /\
  final (RedisPersistency.list Sample.online Sample.quiet) ∅
    (<["process_instance:a-17" := RedisPersistency.OtherText "<html>"]>
       {["process_instance:b-2" := RedisPersistency.JsonText (JSON_stringify_object Sample.order_1)]})
  = State ∅
      (<["process_instance:a-17" := RedisPersistency.OtherText "<html>"]>
         {["process_instance:b-2" := RedisPersistency.JsonText (JSON_stringify_object Sample.order_1)]})
      [Invoke (Some (SyntaxError "Unexpected token in JSON")) RUndef].
Proof.
  split; [reflexivity|]. split; [reflexivity|]. split; [reflexivity|].
  apply (redis_list_unparsable Sample.online Sample.quiet ∅ _ "process_instance:a-17" "<html>");
    reflexivity.
Defined.

(** ** When the store refuses a request *)

Section StoreFailure.

Variables (encode_other : value -> string) (ε : env) (cb : callback).
Variables (h : gmap loc (gmap string value)) (e : js_error).

(** On the Redis adapter a failing request is reported to the callback as
    the client gave it, once, and the store is as before; [save] has already
    written the identifier into the caller's document. *)
Theorem redis_store_failure (b : gmap string RedisPersistency.text) doc o id :
  fault ε 0 = Some e -> h !! doc = Some o ->
  final (RedisPersistency.save ε doc cb) h b
  = State (<[doc := <["id" := id_or_uuid ε (default VUndef (o !! "id"))]> o]> h) b
      [Invoke (Some e) RUndef] /\
  final (RedisPersistency.get ε id cb) h b = State h b [Invoke (Some e) RUndef] /\
  (truthy (default VUndef (o !! "id")) = true ->
   final (RedisPersistency.update ε doc cb) h b = State h b [Invoke (Some e) RUndef]) /\
  final (RedisPersistency.remove ε id cb) h b = State h b [Invoke (Some e) RUndef] /\
  final (RedisPersistency.list ε cb) h b = State h b [Invoke (Some e) RUndef].
Proof.
  intros Hε Hh. split; [by apply redis_save_fault|].
  repeat split; try intros Hid; unfold_adapters; simpl;
    repeat (progress (rewrite ?Hh, ?Hid, ?Hε, ?lookup_insert_eq; simpl)); reflexivity.
Qed.

(** The same on the Postgres adapter: the error of [pool.query] reaches
    the callback unchanged and the table is as before. *)
Theorem postgres_store_failure (t : gmap string Relational.stored) doc o id :
  fault ε 0 = Some e -> h !! doc = Some o ->
  final (PostgresPersistency.save encode_other ε doc cb) h t
  = State (<[doc := <["id" := id_or_uuid ε (default VUndef (o !! "id"))]> o]> h) t
      [Invoke (Some e) RUndef] /\
  final (PostgresPersistency.get encode_other ε id cb) h t
  = State h t [Invoke (Some e) RUndef] /\
  (truthy (default VUndef (o !! "id")) = true ->
   final (PostgresPersistency.update encode_other ε doc cb) h t
   = State h t [Invoke (Some e) RUndef]) /\
  final (PostgresPersistency.remove encode_other ε id cb) h t
  = State h t [Invoke (Some e) RUndef] /\
  final (PostgresPersistency.list ε cb) h t = State h t [Invoke (Some e) RUndef].
Proof.
  intros Hε Hh.
  repeat split; try intros Hid; unfold_adapters; simpl;
    repeat (progress (rewrite ?Hh, ?Hid, ?Hε, ?lookup_insert_eq; simpl)); reflexivity.
Qed.

(** On the Supabase adapter the client resolves to an [error] field; the
    adapter throws it and the callback receives it unchanged. *)
Theorem supabase_store_failure (t : gmap string Relational.stored) doc o id :
  fault ε 0 = Some e -> h !! doc = Some o ->
  final (SupabasePersistency.save encode_other ε doc cb) h t
  = State (<[doc := <["id" := id_or_uuid ε (default VUndef (o !! "id"))]> o]> h) t
      [Invoke (Some e) RUndef] /\
  final (SupabasePersistency.get ε id cb) h t = State h t [Invoke (Some e) RUndef] /\
  (truthy (default VUndef (o !! "id")) = true ->
   final (SupabasePersistency.update ε doc cb) h t = State h t [Invoke (Some e) RUndef]) /\
  final (SupabasePersistency.remove ε id cb) h t = State h t [Invoke (Some e) RUndef] /\
  final (SupabasePersistency.list ε cb) h t = State h t [Invoke (Some e) RUndef].
Proof.
  intros Hε Hh.
  repeat split; try intros Hid; unfold_adapters; simpl;
    repeat (progress (rewrite ?Hh, ?Hid, ?Hε, ?lookup_insert_eq; simpl)); reflexivity.
Qed.

End StoreFailure.

Lemma redis_store_failure_witness :
  fault Sample.offline 0 = Some (ClientError "ECONNREFUSED") /\
  ({[1%positive := Sample.order_2]} : gmap loc (gmap string value)) !! 1%positive
    = Some Sample.order_2 /\
  final (RedisPersistency.update Sample.offline 1%positive Sample.throwing)
    {[1%positive := Sample.order_2]} ∅
  = State {[1%positive := Sample.order_2]} ∅ [Invoke (Some (ClientError "ECONNREFUSED")) RUndef] /\
  final (RedisPersistency.list Sample.offline Sample.throwing) {[1%positive := Sample.order_2]} ∅
  = State {[1%positive := Sample.order_2]} ∅ [Invoke (Some (ClientError "ECONNREFUSED")) RUndef].
Proof.
  split; [reflexivity|]. split; [reflexivity|].
  pose proof (redis_store_failure Sample.offline Sample.throwing {[1%positive := Sample.order_2]}
                (ClientError "ECONNREFUSED") ∅ 1%positive Sample.order_2 VUndef
                eq_refl eq_refl) as (_ & _ & HU & _ & HL).
  split; [apply HU; reflexivity | exact HL].
Defined.

Lemma postgres_store_failure_witness :
  fault Sample.offline 0 = Some (ClientError "ECONNREFUSED") /\
  ({[1%positive := Sample.order_2]} : gmap loc (gmap string value)) !! 1%positive
    = Some Sample.order_2 /\
  final (PostgresPersistency.get Sample.encode Sample.offline (VStr "a-17") Sample.quiet)
    {[1%positive := Sample.order_2]} ∅
  = State {[1%positive := Sample.order_2]} ∅ [Invoke (Some (ClientError "ECONNREFUSED")) RUndef].
Proof.
  split; [reflexivity|]. split; [reflexivity|].
  pose proof (postgres_store_failure Sample.encode Sample.offline Sample.quiet
                {[1%positive := Sample.order_2]} (ClientError "ECONNREFUSED") ∅ 1%positive
                Sample.order_2 (VStr "a-17") eq_refl eq_refl) as (_ & HG & _).
  exact HG.
Defined.

Lemma supabase_store_failure_witness :
  fault Sample.offline 0 = Some (ClientError "ECONNREFUSED") /\
  ({[1%positive := Sample.order_2]} : gmap loc (gmap string value)) !! 1%positive
    = Some Sample.order_2 /\
  final (SupabasePersistency.remove Sample.offline (VStr "a-17") Sample.quiet)
    {[1%positive := Sample.order_2]} ∅
  = State {[1%positive := Sample.order_2]} ∅ [Invoke (Some (ClientError "ECONNREFUSED")) RUndef].
Proof.
  split; [reflexivity|]. split; [reflexivity|].
  pose proof (supabase_store_failure Sample.encode Sample.offline Sample.quiet
                {[1%positive := Sample.order_2]} (ClientError "ECONNREFUSED") ∅ 1%positive
                Sample.order_2 (VStr "a-17") eq_refl eq_refl) as (_ & _ & _ & HR & _).
  exact HR.
Defined.

(** ** The relational adapters: constraints of the table *)

Lemma varchar_too_long (s : string) :
  (50 < Relational.char_length s)%nat ->
  Relational.blank (snd (Relational.split_chars 50 s)) = false ->
  Relational.varchar 50 s = None.
Proof.
  intros Hlen Hb. unfold Relational.varchar.
  destruct (Nat.leb_spec (Relational.char_length s) 50); [lia|]. by rewrite Hb.
Qed.

(** The width is in characters: an identifier of 30 characters in 60 bytes
    fits the key column, and one of 50 characters and a blank is cut. *)
Example varchar_counts_characters :
  String.length Sample.accented_id = 60%nat /\
  Relational.char_length Sample.accented_id = 30%nat /\
  Relational.varchar 50 Sample.accented_id = Some Sample.accented_id /\
  (Relational.varchar 50 Sample.padded_id ≫= fun k => Some (String.length k)) = Some 50%nat.
Proof. repeat split; vm_compute; reflexivity. Qed.

Section RelationalConstraints.

Import Relational.

Variables (encode_other : value -> string) (ε : env) (cb : callback).
Variables (h : gmap loc (gmap string value)) (t : gmap string stored).

(** [save] under an identifier that is already in the table is refused
    with the unique-violation error of the primary key; the table is as
    before, the caller's document carries the identifier. *)
Theorem save_existing_id_refused doc o s r :
  h !! doc = Some o -> fault ε 0 = None ->
  id_or_uuid ε (default VUndef (o !! "id")) = VStr s ->
  (String.length s <= 50)%nat -> t !! s = Some r ->
  final (PostgresPersistency.save encode_other ε doc cb) h t
  = State (<[doc := <["id" := VStr s]> o]> h) t [Invoke (Some (ClientError "23505")) RUndef] /\
  final (SupabasePersistency.save encode_other ε doc cb) h t
  = State (<[doc := <["id" := VStr s]> o]> h) t [Invoke (Some (ClientError "23505")) RUndef].
Proof.
  intros Hh Hε Hid Hlen%(varchar_fits 50) Ht.
  split; unfold_adapters; simpl; read_heap Hh; rewrite Hε, Hid;
    unfold insert_row; simpl; rewrite Hlen, Ht; reflexivity.
Qed.

(** [save] under an identifier of more than 50 characters, what follows
    the first 50 not blank, is refused by the key column [VARCHAR(50)]; the
    table is as before. *)
Theorem save_id_too_long_refused doc o s :
  h !! doc = Some o -> fault ε 0 = None ->
  id_or_uuid ε (default VUndef (o !! "id")) = VStr s ->
  (50 < char_length s)%nat ->
  blank (snd (split_chars 50 s)) = false ->
  final (PostgresPersistency.save encode_other ε doc cb) h t
  = State (<[doc := <["id" := VStr s]> o]> h) t [Invoke (Some (ClientError "22001")) RUndef] /\
  final (SupabasePersistency.save encode_other ε doc cb) h t
  = State (<[doc := <["id" := VStr s]> o]> h) t [Invoke (Some (ClientError "22001")) RUndef].
Proof.
  intros Hh Hε Hid Hlen Hb. pose proof (varchar_too_long s Hlen Hb) as Hv.
  split; unfold_adapters; simpl; read_heap Hh; rewrite Hε, Hid;
    unfold insert_row; simpl; rewrite Hv; reflexivity.
Qed.

Lemma postgres_update_found doc o s r :
  h !! doc = Some o -> o !! "id" = Some (VStr s) -> s <> "" ->
  fault ε 0 = None -> t !! s = Some r ->
  final (PostgresPersistency.update encode_other ε doc cb) h t
  = State h (<[s := Stored (JSON_stringify_object o) (col_created_at r) (now ε)]> t)
      (completion cb (Invoke None
         (RRow (Row s (JSON_parse (JSON_stringify_object o)) (col_created_at r) (now ε))))).
Proof.
  intros Hh Hid Hs%truthy_string Hε Ht. unfold update_row. execute.
Qed.

Lemma supabase_update_found doc o s r :
  h !! doc = Some o -> o !! "id" = Some (VStr s) -> s <> "" ->
  fault ε 0 = None -> t !! s = Some r ->
  final (SupabasePersistency.update ε doc cb) h t
  = State h (<[s := Stored (JSON_stringify_object o) (col_created_at r) (now ε)]> t)
      (completion cb (Invoke None
         (RRow (Row s (JSON_parse (JSON_stringify_object o)) (col_created_at r) (now ε))))).
Proof.
  intros Hh Hid Hs%truthy_string Hε Ht. unfold update_row. execute.
Qed.

(** [update] of a stored row replaces its document by the serialised
    caller's document as a whole, keeps the time of creation, sets the time
    of update to the time of the call and hands the new row back; the
    caller's document is not touched. *)
Theorem update_existing_row doc o s r :
  h !! doc = Some o -> o !! "id" = Some (VStr s) -> s <> "" ->
  fault ε 0 = None -> t !! s = Some r ->
  let r' := Stored (JSON_stringify_object o) (col_created_at r) (now ε) in
  final (PostgresPersistency.update encode_other ε doc cb) h t
  = State h (<[s := r']> t) (completion cb (Invoke None (RRow (select_row s r')))) /\
  final (SupabasePersistency.update ε doc cb) h t
  = State h (<[s := r']> t) (completion cb (Invoke None (RRow (select_row s r')))).
Proof.
  intros Hh Hid Hs Hε Ht r'. split.
  - by apply postgres_update_found.
  - by apply supabase_update_found.
Qed.

End RelationalConstraints.

Lemma save_existing_id_refused_witness :
  ({[1%positive := Sample.order_2]} : gmap loc (gmap string value)) !! 1%positive
    = Some Sample.order_2 /\
  fault Sample.online 0 = None /\
  id_or_uuid Sample.online (default VUndef (Sample.order_2 !! "id")) = VStr "a-17" /\
  (String.length "a-17" <= 50)%nat /\
  ({["a-17" := Sample.old_row]} : gmap string Relational.stored) !! "a-17"
    = Some Sample.old_row /\
  final (PostgresPersistency.save Sample.encode Sample.online 1%positive Sample.quiet)
    {[1%positive := Sample.order_2]} {["a-17" := Sample.old_row]}
  = State (<[1%positive := <["id" := VStr "a-17"]> Sample.order_2]> {[1%positive := Sample.order_2]})
      {["a-17" := Sample.old_row]} [Invoke (Some (ClientError "23505")) RUndef].
Proof.
  assert (Hlen : (String.length "a-17" <= 50)%nat) by (simpl; lia).
  split; [reflexivity|]. split; [reflexivity|]. split; [reflexivity|]. split; [exact Hlen|].
  split; [reflexivity|].
  pose proof (save_existing_id_refused Sample.encode Sample.online Sample.quiet
                {[1%positive := Sample.order_2]} {["a-17" := Sample.old_row]} 1%positive
                Sample.order_2 "a-17" Sample.old_row eq_refl eq_refl eq_refl Hlen eq_refl)
    as (HP & _).
  exact HP.
Defined.

Lemma save_id_too_long_refused_witness :
  ({[1%positive := Sample.order_3]} : gmap loc (gmap string value)) !! 1%positive
    = Some Sample.order_3 /\
  fault Sample.online 0 = None /\
  id_or_uuid Sample.online (default VUndef (Sample.order_3 !! "id")) = VStr Sample.long_id /\
  (50 < Relational.char_length Sample.long_id)%nat /\
  Relational.blank (snd (Relational.split_chars 50 Sample.long_id)) = false /\
  final (SupabasePersistency.save Sample.encode Sample.online 1%positive Sample.quiet)
    {[1%positive := Sample.order_3]} ∅
  = State (<[1%positive := <["id" := VStr Sample.long_id]> Sample.order_3]>
             {[1%positive := Sample.order_3]})
      ∅ [Invoke (Some (ClientError "22001")) RUndef].
Proof.
  assert (Hlen : (50 < Relational.char_length Sample.long_id)%nat) by (vm_compute; lia).
  split; [reflexivity|]. split; [reflexivity|]. split; [reflexivity|]. split; [exact Hlen|].
  split; [reflexivity|].
  pose proof (save_id_too_long_refused Sample.encode Sample.online Sample.quiet
                {[1%positive := Sample.order_3]} ∅ 1%positive Sample.order_3 Sample.long_id
                eq_refl eq_refl eq_refl Hlen eq_refl) as (_ & HS).
  exact HS.
Defined.

Lemma update_existing_row_witness :
  ({[1%positive := Sample.order_2]} : gmap loc (gmap string value)) !! 1%positive
    = Some Sample.order_2 /\
  Sample.order_2 !! "id" = Some (VStr "a-17") /\
  "a-17" <> "" /\
  fault Sample.later 0 = None /\
  ({["a-17" := Sample.old_row]} : gmap string Relational.stored) !! "a-17"
    = Some Sample.old_row /\
  final (PostgresPersistency.update Sample.encode Sample.later 1%positive Sample.quiet)
    {[1%positive := Sample.order_2]} {["a-17" := Sample.old_row]}
  = State {[1%positive := Sample.order_2]}
      (<["a-17" := Relational.Stored (JSON_stringify_object Sample.order_2)
                     1600000000000 1700000360000]> {["a-17" := Sample.old_row]})
      [Invoke None (RRow (Row "a-17" (VObj Sample.order_2) 1600000000000 1700000360000))].
Proof.
  assert (Hne : "a-17" <> "") by discriminate.
  split; [reflexivity|]. split; [reflexivity|]. split; [exact Hne|]. split; [reflexivity|].
  split; [reflexivity|].
  pose proof (update_existing_row Sample.encode Sample.later Sample.quiet
                {[1%positive := Sample.order_2]} {["a-17" := Sample.old_row]} 1%positive
                Sample.order_2 "a-17" Sample.old_row eq_refl eq_refl Hne eq_refl eq_refl)
    as (HP & _).
  rewrite HP. vm_compute. reflexivity.
Defined.

(** ** The relational adapters: timestamps, listing, removing *)

Section RelationalMore.

Import Relational.

Variables (encode_other : value -> string) (cb : callback).
Variables (h : gmap loc (gmap string value)) (t : gmap string stored).


Lemma select_all_rows :
  length (select_all t) = size t /\
  NoDup (row_id <$> select_all t) /\
  (forall r, r ∈ select_all t <->
             exists st, t !! row_id r = Some st /\ r = select_row (row_id r) st).
Proof.
  unfold select_all. split; [|split].
  - by rewrite length_fmap, length_map_to_list.
  - rewrite <- list_fmap_compose.
    replace (row_id ∘ (fun kr : string * stored => select_row kr.1 kr.2)) with
      (fst : string * stored -> string) by done.
    apply NoDup_fst_map_to_list.
  - intros r. rewrite list_elem_of_fmap. split.
    + intros ([k st] & -> & Hk%elem_of_map_to_list). simpl. by exists st.
    + intros (st & Hst & Hr). exists (row_id r, st). split; [done|].
      by apply elem_of_map_to_list.
Qed.

(** [list] hands back exactly the rows of the table, one per identifier,
    each with its document parsed, and changes nothing. *)
Theorem relational_list_rows ε :
  fault ε 0 = None ->
  exists rows,
    final (PostgresPersistency.list ε cb) h t
    = State h t (completion cb (Invoke None (RRows rows))) /\
    final (SupabasePersistency.list ε cb) h t
    = State h t (completion cb (Invoke None (RRows rows))) /\
    length rows = size t /\
    NoDup (row_id <$> rows) /\
    (forall r, r ∈ rows <->
               exists st, t !! row_id r = Some st /\
                          r = Row (row_id r) (JSON_parse (col_doc st))
                                (col_created_at st) (col_updated_at st)).
Proof.
  intros Hε. exists (select_all t).
  destruct select_all_rows as (Hlen & Hnd & Hin).
  split; [|split; [|split; [|split]]]; try done.
  - unfold_adapters. unfold completion. simpl. rewrite Hε. simpl.
    case_callback; reflexivity.
  - unfold_adapters. unfold completion. simpl. rewrite Hε. simpl.
    case_callback; reflexivity.
Qed.

(** [remove] of an identifier that is not in the table succeeds and
    leaves the table as it is; after a [remove] the identifier is gone and a
    second [remove] changes nothing more. *)
Theorem relational_remove_idempotent ε ε' cb' s :
  fault ε 0 = None -> fault ε' 0 = None ->
  (t !! s = None ->
   final (PostgresPersistency.remove encode_other ε (VStr s) cb) h t
   = State h t (completion cb (Invoke None RUndef)) /\
   final (SupabasePersistency.remove ε (VStr s) cb) h t
   = State h t (completion cb (Invoke None RUndef))) /\
  (let once := final (PostgresPersistency.remove encode_other ε (VStr s) cb) h t in
   let twice := final (PostgresPersistency.remove encode_other ε' (VStr s) cb')
                  (heap once) (store once) in
   store once !! s = None /\ store twice = store once /\
   reports twice (Invoke None RUndef)) /\
  (let once := final (SupabasePersistency.remove ε (VStr s) cb) h t in
   let twice := final (SupabasePersistency.remove ε' (VStr s) cb') (heap once) (store once) in
   store once !! s = None /\ store twice = store once /\
   reports twice (Invoke None RUndef)).
Proof.
  intros Hε Hε'. split; [|split].
  - intros Ht. rewrite postgres_remove_ok, supabase_remove_ok by done.
    by rewrite delete_id.
  - intros once twice. subst once twice.
    rewrite (postgres_remove_ok encode_other ε cb h t s Hε). simpl.
    rewrite postgres_remove_ok by done. simpl.
    split; [apply lookup_delete_eq|]. split; [apply delete_delete_eq | done].
  - intros once twice. subst once twice.
    rewrite (supabase_remove_ok ε cb h t s Hε). simpl.
    rewrite supabase_remove_ok by done. simpl.
    split; [apply lookup_delete_eq|]. split; [apply delete_delete_eq | done].
Qed.

End RelationalMore.


Lemma relational_list_rows_witness :
  fault Sample.online 0 = None /\
  exists rows,
    final (PostgresPersistency.list Sample.online Sample.quiet) ∅ {["a-17" := Sample.old_row]}
    = State ∅ {["a-17" := Sample.old_row]} (completion Sample.quiet (Invoke None (RRows rows))) /\
    length rows = 1%nat.
Proof.
  split; [reflexivity|].
  destruct (relational_list_rows Sample.quiet ∅ {["a-17" := Sample.old_row]} Sample.online
              eq_refl) as (rows & HP & _ & Hlen & _).
  exists rows. split; [exact HP|]. rewrite Hlen. apply map_size_singleton.
Defined.

Lemma relational_remove_idempotent_witness :
  fault Sample.online 0 = None /\
  final (SupabasePersistency.remove Sample.online (VStr "b-2") Sample.quiet) ∅
    {["a-17" := Sample.old_row]}
  = State ∅ {["a-17" := Sample.old_row]} [Invoke None RUndef].
Proof.
  split; [reflexivity|].
  pose proof (relational_remove_idempotent Sample.encode Sample.quiet ∅
                {["a-17" := Sample.old_row]} Sample.online Sample.online Sample.quiet "b-2"
                eq_refl eq_refl) as (H & _).
  destruct H as (_ & HS); [reflexivity | exact HS].
Defined.

(** ** Records under other identifiers *)

Lemma key_of_id_inj (s s' : string) :
  "process_instance:" +:+ s = "process_instance:" +:+ s' -> s = s'.
Proof. simpl. intros H. by injection H. Qed.

Section Frame.

Variables (encode_other : value -> string) (ε : env) (cb : callback).
Variables (h : gmap loc (gmap string value)).

(** On the Redis adapter [save], [update] and [remove] for one identifier
    leave what is stored under every other identifier as it is, whatever the
    store answers. *)
Theorem redis_other_records_untouched (b : gmap string RedisPersistency.text) doc o s s' :
  h !! doc = Some o -> s' <> s ->
  (id_or_uuid ε (default VUndef (o !! "id")) = VStr s ->
   store (final (RedisPersistency.save ε doc cb) h b) !! ("process_instance:" +:+ s')
   = b !! ("process_instance:" +:+ s')) /\
  (o !! "id" = Some (VStr s) ->
   store (final (RedisPersistency.update ε doc cb) h b) !! ("process_instance:" +:+ s')
   = b !! ("process_instance:" +:+ s')) /\
  store (final (RedisPersistency.remove ε (VStr s) cb) h b) !! ("process_instance:" +:+ s')
  = b !! ("process_instance:" +:+ s').
Proof.
  intros Hh Hne.
  assert (Hk : "process_instance:" +:+ s <> "process_instance:" +:+ s')
    by (intros Hk%key_of_id_inj; congruence).
  repeat apply conj.
  - intros Hid. destruct (fault ε 0) as [e|] eqn:Hε.
    + by rewrite (redis_save_fault ε cb h b doc o e Hh Hε).
    + rewrite (redis_save_ok ε cb h b doc o Hh Hε). rewrite Hid. simpl.
      case_callback; simpl; by apply lookup_insert_ne.
  - intros Hid. unfold_adapters. simpl. rewrite Hh. simpl. rewrite Hid. simpl.
    destruct (negb (String.eqb s "")); simpl; [|case_callback; simpl; done].
    rewrite Hh. simpl. destruct (fault ε 0); simpl; [case_callback; simpl; done|].
    case_callback; simpl; by apply lookup_insert_ne.
  - unfold_adapters. simpl. destruct (fault ε 0); simpl; [case_callback; simpl; done|].
    case_callback; simpl; by apply lookup_delete_ne.
Qed.

(** On the relational adapters the rows under other identifiers are as
    before, whatever the table answers. *)
Theorem relational_other_rows_untouched (t : gmap string Relational.stored) doc o s s' :
  h !! doc = Some o -> s' <> s ->
  (id_or_uuid ε (default VUndef (o !! "id")) = VStr s -> (String.length s <= 50)%nat ->
   store (final (PostgresPersistency.save encode_other ε doc cb) h t) !! s' = t !! s' /\
   store (final (SupabasePersistency.save encode_other ε doc cb) h t) !! s' = t !! s') /\
  (o !! "id" = Some (VStr s) ->
   store (final (PostgresPersistency.update encode_other ε doc cb) h t) !! s' = t !! s' /\
   store (final (SupabasePersistency.update ε doc cb) h t) !! s' = t !! s') /\
  store (final (PostgresPersistency.remove encode_other ε (VStr s) cb) h t) !! s' = t !! s' /\
  store (final (SupabasePersistency.remove ε (VStr s) cb) h t) !! s' = t !! s'.
Proof.
  intros Hh Hne. repeat apply conj.
  - intros Hid Hlen%(varchar_fits 50).
    split; unfold_adapters; simpl; read_heap Hh; rewrite Hid;
      unfold Relational.insert_row; simpl; rewrite Hlen;
      destruct (fault ε 0); simpl; try (case_callback; simpl; done);
      destruct (t !! s); simpl; try (case_callback; simpl; done); case_callback; simpl; by apply lookup_insert_ne.
  - intros Hid.
    split; unfold_adapters; simpl; rewrite Hh; simpl; rewrite Hid; simpl;
      destruct (negb (String.eqb s "")); simpl; try (case_callback; simpl; done);
      rewrite Hh; simpl; unfold Relational.update_row; simpl;
      destruct (fault ε 0); simpl; try (case_callback; simpl; done);
      destruct (t !! s); simpl; try (case_callback; simpl; done); case_callback; simpl; by apply lookup_insert_ne.
  - unfold_adapters; simpl; destruct (fault ε 0); simpl; [case_callback; simpl; done|].
    case_callback; simpl; by apply lookup_delete_ne.
  - unfold_adapters; simpl; destruct (fault ε 0); simpl; [case_callback; simpl; done|].
    case_callback; simpl; by apply lookup_delete_ne.
Qed.

End Frame.

Lemma redis_other_records_untouched_witness :
  ({[1%positive := Sample.order_2]} : gmap loc (gmap string value)) !! 1%positive
    = Some Sample.order_2 /\
  "b-2" <> "a-17" /\
  store (final (RedisPersistency.remove Sample.online (VStr "a-17") Sample.quiet)
           {[1%positive := Sample.order_2]}
           {["process_instance:b-2" := RedisPersistency.OtherText "x"]})
    !! ("process_instance:" +:+ "b-2")
  = ({["process_instance:b-2" := RedisPersistency.OtherText "x"]}
       : gmap string RedisPersistency.text) !! ("process_instance:" +:+ "b-2").
Proof.
  assert (Hne : "b-2" <> "a-17") by discriminate.
  split; [reflexivity|]. split; [exact Hne|].
  pose proof (redis_other_records_untouched Sample.online Sample.quiet
                {[1%positive := Sample.order_2]}
                {["process_instance:b-2" := RedisPersistency.OtherText "x"]}
                1%positive Sample.order_2 "a-17" "b-2" eq_refl Hne) as (_ & _ & HR).
  exact HR.
Defined.

Lemma relational_other_rows_untouched_witness :
  ({[1%positive := Sample.order_1]} : gmap loc (gmap string value)) !! 1%positive
    = Some Sample.order_1 /\
  "a-17" <> uuid_text Sample.id_1 /\
  store (final (PostgresPersistency.save Sample.encode Sample.online 1%positive Sample.quiet)
           {[1%positive := Sample.order_1]} {["a-17" := Sample.old_row]}) !! "a-17"
  = ({["a-17" := Sample.old_row]} : gmap string Relational.stored) !! "a-17".
Proof.
  assert (Hne : "a-17" <> uuid_text Sample.id_1) by discriminate.
  assert (Hlen : (String.length (uuid_text Sample.id_1) <= 50)%nat) by (vm_compute; lia).
  split; [reflexivity|]. split; [exact Hne|].
  pose proof (relational_other_rows_untouched Sample.encode Sample.online Sample.quiet
                {[1%positive := Sample.order_1]} {["a-17" := Sample.old_row]}
                1%positive Sample.order_1 (uuid_text Sample.id_1) "a-17" eq_refl Hne)
    as (HS & _).
  destruct (HS eq_refl Hlen) as (HP & _). exact HP.
Defined.

(** ** Updating and reading back *)

Section UpdateGet.

Variables (encode_other : value -> string) (ε ε' : env) (cb cb' : callback).
Variables (h : gmap loc (gmap string value)).

(** For a document all of whose values JSON can represent and that carries
    a string identifier: after an [update] that goes through, [get] yields
    the document as it was passed, on Redis whether or not the identifier
    was stored before, on the relational adapters when its row exists. *)
Theorem update_get_round_trip doc o s :
  h !! doc = Some o -> json_representable (VObj o) = true ->
  o !! "id" = Some (VStr s) -> s <> "" ->
  fault ε 0 = None -> fault ε' 0 = None ->
  (forall b,
     let updated := final (RedisPersistency.update ε doc cb) h b in
     reports updated (Invoke None (RRef doc)) /\ heap updated = h /\
     reports (final (RedisPersistency.get ε' (VStr s) cb') (heap updated) (store updated))
       (Invoke None (RVal (VObj o)))) /\
  (forall t r, t !! s = Some r ->
     let updated := final (PostgresPersistency.update encode_other ε doc cb) h t in
     exists r',
       reports (final (PostgresPersistency.get encode_other ε' (VStr s) cb')
                  (heap updated) (store updated)) (Invoke None (RRow r')) /\
       heap updated = h /\ row_id r' = s /\ row_doc r' = VObj o) /\
  (forall t r, t !! s = Some r ->
     let updated := final (SupabasePersistency.update ε doc cb) h t in
     exists r',
       reports (final (SupabasePersistency.get ε' (VStr s) cb') (heap updated) (store updated))
         (Invoke None (RRow r')) /\
       heap updated = h /\ row_id r' = s /\ row_doc r' = VObj o).
Proof.
  intros Hh Ho Hid Hs Hε Hε'.
  assert (Htr : truthy (default VUndef (o !! "id")) = true).
  { rewrite Hid. simpl. by rewrite truthy_string. }
  repeat apply conj.
  - intros b updated. subst updated.
    rewrite (redis_update_ok ε cb h b doc o Hh Htr Hε). simpl. rewrite Hid. simpl.
    split; [done|]. split; [done|].
    rewrite (redis_get_found ε' cb' _ _ (VStr s) (JSON_stringify_object o));
      [| done | apply lookup_insert_eq].
    by rewrite JSON_round_trip_object.
  - intros t r Ht updated. subst updated.
    rewrite (postgres_update_found encode_other ε cb h t doc o s r Hh Hid Hs Hε Ht). simpl.
    erewrite postgres_get_found; [| done | apply lookup_insert_eq].
    eexists. split; [reflexivity|]. split; [done|]. split; [done|].
    simpl. by apply JSON_round_trip_object.
  - intros t r Ht updated. subst updated.
    rewrite (supabase_update_found ε cb h t doc o s r Hh Hid Hs Hε Ht). simpl.
    erewrite supabase_get_found; [| done | apply lookup_insert_eq].
    eexists. split; [reflexivity|]. split; [done|]. split; [done|].
    simpl. by apply JSON_round_trip_object.
Qed.

(** A row that [get] finds on a relational adapter carries the stored
    identifier and timestamps and the parse of the stored document, which
    has no [undefined] anywhere in it; nothing is changed. *)
Theorem relational_get_found_is_json (t : gmap string Relational.stored) s r :
  fault ε 0 = None -> t !! s = Some r ->
  exists x,
    final (PostgresPersistency.get encode_other ε (VStr s) cb) h t
    = State h t (completion cb (Invoke None (RRow x))) /\
    final (SupabasePersistency.get ε (VStr s) cb) h t
    = State h t (completion cb (Invoke None (RRow x))) /\
    row_id x = s /\
    row_created_at x = Relational.col_created_at r /\
    row_updated_at x = Relational.col_updated_at r /\
    row_doc x = JSON_parse (Relational.col_doc r) /\
    json_representable (row_doc x) = true.
Proof.
  intros Hε Ht. exists (Relational.select_row s r).
  split; [by apply postgres_get_found|]. split; [by apply supabase_get_found|].
  simpl. repeat split. apply JSON_parse_representable.
Qed.

End UpdateGet.

Lemma update_get_round_trip_witness :
  ({[1%positive := Sample.order_2]} : gmap loc (gmap string value)) !! 1%positive
    = Some Sample.order_2 /\
  json_representable (VObj Sample.order_2) = true /\
  Sample.order_2 !! "id" = Some (VStr "a-17") /\ "a-17" <> "" /\
  fault Sample.online 0 = None /\
  (let updated := final (RedisPersistency.update Sample.online 1%positive Sample.quiet)
                    {[1%positive := Sample.order_2]} ∅ in
   reports updated (Invoke None (RRef 1%positive)) /\
   heap updated = {[1%positive := Sample.order_2]} /\
   reports (final (RedisPersistency.get Sample.online (VStr "a-17") Sample.quiet)
              (heap updated) (store updated))
     (Invoke None (RVal (VObj Sample.order_2)))).
Proof.
  assert (Hne : "a-17" <> "") by discriminate.
  split; [reflexivity|]. split; [reflexivity|]. split; [reflexivity|]. split; [exact Hne|].
  split; [reflexivity|].
  pose proof (update_get_round_trip Sample.encode Sample.online Sample.online Sample.quiet
                Sample.quiet {[1%positive := Sample.order_2]} 1%positive Sample.order_2 "a-17"
                eq_refl eq_refl eq_refl Hne eq_refl eq_refl) as (HR & _).
  apply (HR ∅).
Defined.

Lemma relational_get_found_is_json_witness :
  fault Sample.online 0 = None /\
  ({["a-17" := Sample.old_row]} : gmap string Relational.stored) !! "a-17"
    = Some Sample.old_row /\
  exists x,
    final (PostgresPersistency.get Sample.encode Sample.online (VStr "a-17") Sample.quiet) ∅
      {["a-17" := Sample.old_row]}
    = State ∅ {["a-17" := Sample.old_row]} (completion Sample.quiet (Invoke None (RRow x))) /\
    row_id x = "a-17" /\ json_representable (row_doc x) = true.
Proof.
  split; [reflexivity|]. split; [reflexivity|].
  assert (Ht : ({["a-17" := Sample.old_row]} : gmap string Relational.stored) !! "a-17"
               = Some Sample.old_row) by reflexivity.
  destruct (relational_get_found_is_json Sample.encode Sample.online Sample.quiet ∅
              {["a-17" := Sample.old_row]} "a-17" Sample.old_row eq_refl Ht)
    as (x & HP & _ & Hid & _ & _ & _ & Hj).
  exists x. split; [exact HP|]. split; [exact Hid | exact Hj].
Defined.

(** ** A callback that throws *)

Section ThrowingCallback.

Variables (encode_other : value -> string) (ε : env) (cb : callback).
Variables (h : gmap loc (gmap string value)) (e : js_error).

(** The success call sits inside the [try] block.  When the callback
    throws on the success signal of [remove], the [catch] block calls it a
    second time with what it threw; the record is removed all the same, and
    the operation ends the way the second call ends. *)
Theorem remove_callback_throws s :
  fault ε 0 = None -> cb (Invoke None RUndef) = Some e ->
  let outcome := match cb (Invoke (Some e) RUndef) with
                 | Some e' => inl e'
                 | None => inr tt
                 end in
  (forall b,
     run (RedisPersistency.remove ε (VStr s) cb) h b
     = (outcome, State h (delete ("process_instance:" +:+ s) b)
                   [Invoke None RUndef; Invoke (Some e) RUndef])) /\
  (forall t,
     run (PostgresPersistency.remove encode_other ε (VStr s) cb) h t
     = (outcome, State h (delete s t) [Invoke None RUndef; Invoke (Some e) RUndef])) /\
  (forall t,
     run (SupabasePersistency.remove ε (VStr s) cb) h t
     = (outcome, State h (delete s t) [Invoke None RUndef; Invoke (Some e) RUndef])).
Proof.
  intros Hε Hcb outcome. subst outcome.
  repeat split; intros; unfold_adapters; unfold Relational.delete_row; simpl;
    rewrite Hε; simpl; rewrite Hcb; simpl; reflexivity.
Qed.

End ThrowingCallback.

Lemma remove_callback_throws_witness :
  fault Sample.online 0 = None /\
  Sample.throwing (Invoke None RUndef) = Some (Error "handler failed") /\
  run (RedisPersistency.remove Sample.online (VStr "a-17") Sample.throwing) ∅
    {["process_instance:a-17" := RedisPersistency.OtherText "x"]}
  = (inr tt,
     State ∅ (delete ("process_instance:" +:+ "a-17")
                {["process_instance:a-17" := RedisPersistency.OtherText "x"]})
       [Invoke None RUndef; Invoke (Some (Error "handler failed")) RUndef]).
Proof.
  split; [reflexivity|]. split; [reflexivity|].
  pose proof (remove_callback_throws Sample.encode Sample.online Sample.throwing ∅
                (Error "handler failed") "a-17" eq_refl eq_refl) as (HR & _).
  apply HR.
Defined.

(** ** The facade: which constructor a uri selects *)

Section FacadeSchemes.

Context {W : Type}.
Variables file_js mongodb_js : Facade.module_exports (@Facade.constructor W).

(** A uri that starts with [mongodb://] goes, together with the options,
    to the constructor that [./mongodb.js] exports; what that constructor
    throws, construction throws. *)
Theorem Persistency_mongodb_scheme (o : gmap string value) (s : string) :
  o !! "uri" = Some (VStr s) -> String.prefix "mongodb://" s = true ->
  Facade.Persistency file_js mongodb_js (VObj o)
  = match Facade.new (Facade.MongoDBPersistency mongodb_js) "MongoDBPersistency"
            [VStr s; VObj o] with
    | inl e => inl e
    | inr impl => inr (Facade.Bind impl)
    end.
Proof.
  intros Ho Hp.
  assert (Hs : String.eqb s "" = false).
  { apply String.eqb_neq. intros ->. discriminate Hp. }
  unfold Facade.Persistency, Facade.select_implementation, Facade.property. rewrite Ho.
  simpl. rewrite Hs. simpl. by rewrite Hp.
Qed.

(** A uri that is a number, a boolean or an object has no [indexOf]:
    construction throws a [TypeError] before any adapter is chosen. *)
Theorem Persistency_uri_without_indexOf (o : gmap string value) (v : value) :
  o !! "uri" = Some v -> truthy v = true ->
  (forall s, v <> VStr s) -> (forall l, v <> VArr l) ->
  Facade.Persistency file_js mongodb_js (VObj o)
  = inl (TypeError "uri.indexOf is not a function").
Proof.
  intros Ho Hv Hs Hl.
  unfold Facade.Persistency, Facade.select_implementation, Facade.property. rewrite Ho.
  simpl. rewrite Hv. simpl.
  destruct v; try reflexivity; [by destruct (Hs s) | by destruct (Hl l)].
Qed.

End FacadeSchemes.

Lemma Persistency_requires_uri_witness :
  (truthy (VObj {["uri" := VStr ""]}) = false \/
   truthy (Facade.property (VObj {["uri" := VStr ""]}) "uri") = false) /\
  exists e, ConfigurationError e /\
            Facade.Persistency Sample.file_js Sample.mongodb_js (VObj {["uri" := VStr ""]})
            = inl e.
Proof.
  assert (H : truthy (VObj {["uri" := VStr ""]}) = false \/
              truthy (Facade.property (VObj {["uri" := VStr ""]}) "uri") = false)
    by (right; reflexivity).
  split; [exact H|].
  apply (Persistency_requires_uri Sample.file_js Sample.mongodb_js _ H).
Defined.

Lemma Persistency_file_fallback_witness :
  ({["uri" := VStr "ftp://x"]} : gmap string value) !! "uri" = Some (VStr "ftp://x") /\
  "ftp://x" <> "" /\
  String.prefix "mongodb://" "ftp://x" = false /\
  String.prefix "redis://" "ftp://x" = false /\
  Facade.Persistency Sample.file_js Sample.mongodb_js (VObj {["uri" := VStr "ftp://x"]})
  = inr (Facade.Bind Sample.echo).
Proof.
  assert (Hne : "ftp://x" <> "") by discriminate.
  split; [reflexivity|]. split; [exact Hne|]. split; [reflexivity|]. split; [reflexivity|].
  assert (Ho : ({["uri" := VStr "ftp://x"]} : gmap string value) !! "uri"
               = Some (VStr "ftp://x")) by reflexivity.
  rewrite (Persistency_file_fallback Sample.file_js Sample.mongodb_js
             {["uri" := VStr "ftp://x"]} "ftp://x" Ho Hne eq_refl eq_refl eq_refl eq_refl).
  reflexivity.
Defined.

Lemma Persistency_mongodb_scheme_witness :
  ({["uri" := VStr "mongodb://localhost/bpmn"]} : gmap string value) !! "uri"
    = Some (VStr "mongodb://localhost/bpmn") /\
  String.prefix "mongodb://" "mongodb://localhost/bpmn" = true /\
  Facade.Persistency Sample.file_js Sample.mongodb_js
    (VObj {["uri" := VStr "mongodb://localhost/bpmn"]})
  = inr (Facade.Bind Sample.echo).
Proof.
  split; [reflexivity|]. split; [reflexivity|].
  assert (Ho : ({["uri" := VStr "mongodb://localhost/bpmn"]} : gmap string value) !! "uri"
               = Some (VStr "mongodb://localhost/bpmn")) by reflexivity.
  rewrite (Persistency_mongodb_scheme Sample.file_js Sample.mongodb_js
             {["uri" := VStr "mongodb://localhost/bpmn"]} "mongodb://localhost/bpmn"
             Ho eq_refl).
  reflexivity.
Defined.

Lemma Persistency_uri_without_indexOf_witness :
  ({["uri" := VNum 6379]} : gmap string value) !! "uri" = Some (VNum 6379) /\
  truthy (VNum 6379) = true /\
  Facade.Persistency Sample.file_js Sample.mongodb_js (VObj {["uri" := VNum 6379]})
  = inl (TypeError "uri.indexOf is not a function").
Proof.
  split; [reflexivity|]. split; [reflexivity|].
  assert (Ho : ({["uri" := VNum 6379]} : gmap string value) !! "uri" = Some (VNum 6379))
    by reflexivity.
  apply (Persistency_uri_without_indexOf Sample.file_js Sample.mongodb_js
           {["uri" := VNum 6379]} (VNum 6379) Ho eq_refl); discriminate.
Defined.
